(** * The [commandline] builtin of the fish shell

    A shallow embedding of [builtin_commandline.cpp]: the splice of an
    extent of the command line buffer ([replace_part]), the printing of an
    extent ([write_part]) and the dispatch of the builtin itself
    ([builtin_commandline]), with the properties of the buffer and of the
    cursor that the design document of the builtin states.

    Pointers into the buffer are offsets from its start, in [Z]; a call
    that the string library does not answer (a count out of range) is
    [None]; the tokenizer, the unescaping and the extents of parse_util
    are the members of the class [Collaborators]. *)

From Stdlib Require Import ZArith List Lia Bool String Ascii DecimalString
  DecimalPos DecimalN.
Import ListNotations.

Open Scope Z_scope.

(** ** Wide strings *)

(** A [wchar_t] of a NUL-terminated wide string: its code, never 0.  The
    strings of this file are the contents of [wcstring] objects and of
    [const wchar_t *] C strings, so the terminator is not a member. *)
Definition wchar_t := positive.

Definition wcstring := list wchar_t.

Definition wcslen (s : wcstring) : Z := Z.of_nat (List.length s).

(** The wide literal [L"..."]: as in C, the string stops at a NUL. *)
Fixpoint L (s : string) : wcstring :=
  match s with
  | EmptyString => []
  | String a r =>
      match N_of_ascii a with
      | N0 => []
      | Npos p => p :: L r
      end
  end.

Definition newline : wchar_t := 10%positive.

(** ** Abnormal termination

    The code hands counts and offsets it computes by pointer subtraction to
    [std::wstring].  A count that is negative before its conversion to
    [size_t], or that runs over the end of the array it reads, has no
    result: the library raises [std::length_error] or the read is outside
    the array.  [None] stands for both; the function then never reaches
    the code after the call. *)

Definition bind {A B : Type} (m : option A) (k : A -> option B) : option B :=
  match m with
  | Some a => k a
  | None => None
  end.

Notation "x <- m ;; k" := (bind m (fun x => k))
  (at level 61, m at next level, right associativity).

(** [wcstring(p, n)] and [out.append(p, n)] where [p = buff + off]: the [n]
    characters at offset [off]. *)
Definition wcs_chars (buff : wcstring) (off n : Z) : option wcstring :=
  if (0 <=? off) && (0 <=? n) && (off + n <=? wcslen buff)
  then Some (firstn (Z.to_nat n) (skipn (Z.to_nat off) buff))
  else None.

(** [out.append(p)] where [p = buff + off]: the C string at offset [off],
    up to the terminator of [buff]. *)
Definition wcs_tail (buff : wcstring) (off : Z) : option wcstring :=
  if (0 <=? off) && (off <=? wcslen buff)
  then Some (skipn (Z.to_nat off) buff)
  else None.

(** The slice [text[i:j]] of the design document. *)
Definition slice (text : wcstring) (i j : Z) : wcstring :=
  firstn (Z.to_nat (j - i)) (skipn (Z.to_nat i) text).

(** ** The edited line and the reader *)

Record editable_line_t := mk_line {
  text : wcstring;
  position : Z
}.

(** For text insertion, how should it be done. *)
Inductive append_mode_t :=
| REPLACE_MODE   (* Replace current text *)
| INSERT_MODE    (* Insert at cursor position *)
| APPEND_MODE.   (* Insert at end of current token/command/buffer *)

(** Which part of the command buffer are we operating on. *)
Inductive buffer_part_t :=
| STRING_MODE    (* Operate on entire buffer *)
| JOB_MODE       (* Operate on job under cursor *)
| PROCESS_MODE   (* Operate on process under cursor *)
| TOKEN_MODE.    (* Operate on token under cursor *)

(** The state outside the builtin that it acts on: the buffer of the
    interactive reader, the requests queued for the main thread, and the
    queue of unread key presses. *)
Record world := mk_world {
  is_main_thread : bool;
  reader_buffer : editable_line_t;
  main_thread_queue : list editable_line_t;
  input_queue : list wchar_t
}.

(** Modelled from the spec: [reader_set_buffer] (reader.cpp), the
    BufferApplier, which commits a (text, cursor) pair to the live
    buffer. *)
Definition reader_set_buffer (b : wcstring) (pos : Z) (w : world) : world :=
  {| is_main_thread := is_main_thread w;
     reader_buffer := {| text := b; position := pos |};
     main_thread_queue := main_thread_queue w;
     input_queue := input_queue w |}.

(** Modelled from the spec: [iothread_enqueue_to_main] (iothread.cpp), the
    hand-off of one buffer value to the main thread, which applies it
    later with [apply_new_commandline_and_delete]. *)
Definition iothread_enqueue_to_main (b : editable_line_t) (w : world) : world :=
  {| is_main_thread := is_main_thread w;
     reader_buffer := reader_buffer w;
     main_thread_queue := main_thread_queue w ++ [b];
     input_queue := input_queue w |}.

Definition apply_new_commandline (buffer : editable_line_t) (w : world) : world :=
  if is_main_thread w
  then reader_set_buffer (text buffer) (position buffer) w
  else iothread_enqueue_to_main buffer w.

(** ** [replace_part] *)

(** The line [tmp] that [replace_part] builds.  [begin] and [end_] are the
    offsets [begin - buff] and [end - buff] of the two pointers into
    [buffer.text.c_str()]. *)
Definition replace_part_line (buffer : editable_line_t) (begin end_ : Z)
    (insert : wcstring) (append_mode : append_mode_t) : option editable_line_t :=
  let buff := text buffer in
  let out_pos := position buffer in
  out <- wcs_chars buff 0 begin ;;
  r <- match append_mode with
       | REPLACE_MODE =>
           Some (out ++ insert, wcslen insert + begin)
       | APPEND_MODE =>
           e <- wcs_chars buff begin (end_ - begin) ;;
           Some ((out ++ e) ++ insert, out_pos)
       | INSERT_MODE =>
           let cursor := position buffer - begin in
           a <- wcs_chars buff begin cursor ;;
           b <- wcs_chars buff (begin + cursor) (end_ - begin - cursor) ;;
           Some (((out ++ a) ++ insert) ++ b, out_pos + wcslen insert)
       end ;;
  rest <- wcs_tail buff end_ ;;
  Some {| text := fst r ++ rest; position := snd r |}.

Definition replace_part (buffer : editable_line_t) (begin end_ : Z)
    (insert : wcstring) (append_mode : append_mode_t) (w : world) : option world :=
  tmp <- replace_part_line buffer begin end_ insert append_mode ;;
  Some (apply_new_commandline tmp w).

(** ** The collaborators of the builtin

    The tokenizer, the unescaping of a string, the extents of the job, the
    process and the token under the cursor, the table of input functions
    and the texts of the messages live in other files of the shell.  The
    builtin is written against this interface. *)

(** Modelled from the spec: the kinds of token (tokenizer.h), which tell a
    string apart from the other syntactic kinds. *)
Inductive token_type :=
| TOK_ERROR
| TOK_STRING
| TOK_PIPE
| TOK_END
| TOK_REDIRECT
| TOK_BACKGROUND
| TOK_COMMENT.

(** What the accessors [tok_last_type], [tok_get_pos] and [tok_last] give
    at one position of the tokenizer. *)
Record token := mk_token {
  tok_last_type : token_type;
  tok_get_pos : Z;
  tok_last : wcstring
}.

(** The messages the builtin formats on its error stream. *)
Inductive message :=
| BUILTIN_ERR_UNKNOWN (cmd name : wcstring)
| BUILTIN_ERR_COMBO (cmd : wcstring)
| BUILTIN_ERR_MISSING (cmd : wcstring)
| ERR_UNKNOWN_INPUT_FUNCTION (cmd arg : wcstring)
| ERR_TOO_MANY_ARGUMENTS (cmd : wcstring)
| BUILTIN_ERR_COMBO2 (cmd why : wcstring)
| BUILTIN_ERR_NOT_NUMBER (cmd arg : wcstring).

Class Collaborators := {
  (** [tokenizer_t tok(buff, TOK_ACCEPT_UNFINISHED)]: the tokens at which
      [tok_has_next] holds, in the order [tok_next] reaches them. *)
  tokenizer_t : wcstring -> list token;
  (** [unescape_string_in_place(&s, UNESCAPE_INCOMPLETE)]: the content of
      [s] after the call. *)
  unescape_string_in_place : wcstring -> wcstring;
  (** The offsets of [*begin] and [*end] that the extent functions of
      parse_util set, for a buffer and a cursor position. *)
  parse_util_process_extent : wcstring -> Z -> Z * Z;
  parse_util_job_extent : wcstring -> Z -> Z * Z;
  parse_util_token_extent : wcstring -> Z -> Z * Z;
  parse_util_lineno : wcstring -> Z -> Z;
  (** The code of an input function, [None] for [(wchar_t)(-1)]. *)
  input_function_get_code : wcstring -> option wchar_t;
  (** What [append_format] writes for a message. *)
  append_format : message -> wcstring;
  (** What [builtin_print_help] and [builtin_unknown_option] write. *)
  builtin_print_help : wcstring -> wcstring;
  builtin_unknown_option : wcstring -> wcstring -> wcstring
}.

Record io_streams_t := mk_streams {
  stdout_stream : wcstring;
  stderr_stream : wcstring
}.

Definition stdout_append (s : wcstring) (streams : io_streams_t) : io_streams_t :=
  {| stdout_stream := stdout_stream streams ++ s;
     stderr_stream := stderr_stream streams |}.

Definition stderr_append (s : wcstring) (streams : io_streams_t) : io_streams_t :=
  {| stdout_stream := stdout_stream streams;
     stderr_stream := stderr_stream streams ++ s |}.

(** ** [write_part] *)

(** The difference of two [size_t] values, which wraps around [2^64] when
    the second is the larger. *)
Definition size_t_sub (a b : Z) : Z :=
  if b <=? a then a - b else a - b + 2 ^ 64.

(** [wcsndup(p, n)] where [p = buff + off]: at most [n] characters of the C
    string at offset [off]; a negative [n] is a huge [size_t]. *)
Definition wcsndup (buff : wcstring) (off n : Z) : option wcstring :=
  rest <- wcs_tail buff off ;;
  Some (if n <? 0 then rest else firstn (Z.to_nat n) rest).

Section WritePart.
Context {shell : Collaborators}.

(** The loop over the tokens, from the token list left to visit and the
    string [out] built so far. *)
Fixpoint write_part_tokens (toks : list token) (cut_at_cursor : bool)
    (pos : Z) (out : wcstring) : wcstring :=
  match toks with
  | [] => out
  | tok :: toks' =>
      if cut_at_cursor && (pos <=? tok_get_pos tok + wcslen (tok_last tok))
      then out
      else
        write_part_tokens toks' cut_at_cursor pos
          match tok_last_type tok with
          | TOK_STRING =>
              let tmp := unescape_string_in_place (tok_last tok) in
              (out ++ tmp) ++ [newline]
          | _ => out
          end
  end.

Definition write_part (buffer : wcstring) (cursor_pos : Z)
    (streams : io_streams_t) (begin end_ : Z)
    (cut_at_cursor tokenize : bool) : option io_streams_t :=
  let pos := size_t_sub cursor_pos begin in
  if tokenize then
    buff <- wcsndup buffer begin (end_ - begin) ;;
    let out := write_part_tokens (tokenizer_t buff) cut_at_cursor pos [] in
    Some (stdout_append out streams)
  else
    let end_ := if cut_at_cursor then begin + pos else end_ in
    tmp <- wcs_chars buffer begin (end_ - begin) ;;
    let tmp := unescape_string_in_place tmp in
    Some (stdout_append [newline] (stdout_append tmp streams)).

End WritePart.

(** ** The C library and the helpers of util.h *)

Definition iswspace (c : wchar_t) : bool :=
  (Z.pos c =? 32) || ((9 <=? Z.pos c) && (Z.pos c <=? 13)).

Definition digit_value (c : wchar_t) : option Z :=
  if (48 <=? Z.pos c) && (Z.pos c <=? 57) then Some (Z.pos c - 48) else None.

Fixpoint skip_spaces (s : wcstring) : wcstring :=
  match s with
  | c :: r => if iswspace c then skip_spaces r else s
  | [] => []
  end.

Fixpoint read_digits (s : wcstring) (acc : Z) : Z * wcstring :=
  match s with
  | c :: r =>
      match digit_value c with
      | Some d => read_digits r (acc * 10 + d)
      | None => (acc, s)
      end
  | [] => (acc, [])
  end.

Definition LONG_MAX : Z := 2 ^ 63 - 1.
Definition LONG_MIN : Z := - 2 ^ 63.

Record wcstol_result := mk_wcstol {
  wcstol_value : Z;         (* the returned long *)
  wcstol_endptr : wcstring; (* the C string at [*endptr] *)
  wcstol_errno : bool       (* whether [errno] was set *)
}.

(** [wcstol(nptr, &endptr, 10)] of the C library, after [errno = 0]:
    optional white space, an optional sign, decimal digits.  Without a
    digit nothing is converted and [endptr] is [nptr]; a value outside
    [long] is clamped and sets [errno]. *)
Definition wcstol (nptr : wcstring) : wcstol_result :=
  let s := skip_spaces nptr in
  let '(negative, s1) :=
    match s with
    | c :: r =>
        if Z.pos c =? 45 then (true, r)
        else if Z.pos c =? 43 then (false, r)
        else (false, s)
    | [] => (false, s)
    end in
  match s1 with
  | c :: _ =>
      match digit_value c with
      | Some _ =>
          let '(v, rest) := read_digits s1 0 in
          let v := if negative then - v else v in
          if LONG_MAX <? v then mk_wcstol LONG_MAX rest true
          else if v <? LONG_MIN then mk_wcstol LONG_MIN rest true
          else mk_wcstol v rest false
      | None => mk_wcstol 0 nptr false
      end
  | [] => mk_wcstol 0 nptr false
  end.

(** Modelled from the spec: [maxi] and [mini] (util.h), the larger and the
    smaller of two integers. *)
Definition maxi (a b : Z) : Z := Z.max a b.
Definition mini (a b : Z) : Z := Z.min a b.

(** The conversion ["%lu\n"] of [append_format]. *)
Definition format_lu (n : Z) : wcstring :=
  L (NilZero.string_of_uint (N.to_uint (Z.to_N n))) ++ [newline].

(** ** [builtin_commandline] *)

Record reader_snapshot_t := mk_snapshot {
  command_line : editable_line_t;
  selection_is_active : bool;
  selection_start : Z;
  selection_length : Z;
  snapshot_search_mode : bool;   (* the member [search_mode] *)
  has_pager_contents : bool
}.

(** The values [w.wgetopt_long] returns for the option table of the
    builtin, one for each call of the loop before it returns [-1]. *)
Inductive getopt_t :=
| opt_0 (flag : bool) (name : wcstring)  (* 0, for the entry [long_options[opt_index]] *)
| opt_a | opt_b | opt_i | opt_r | opt_c | opt_t | opt_j | opt_p
| opt_f | opt_o
| opt_w                                  (* in the option string, without a case *)
| opt_I (woptarg : wcstring)
| opt_C | opt_L | opt_S | opt_s | opt_P | opt_h
| opt_unknown (arg : wcstring).          (* '?', with [argv[w.woptind-1]] *)

(** The local variables of [builtin_commandline] that the options set; a
    mode that is still [0] is [None]. *)
Record locals := mk_locals {
  buffer_part : option buffer_part_t;
  cut_at_cursor : bool;
  append_mode : option append_mode_t;
  function_mode : bool;
  selection_mode : bool;
  tokenize : bool;
  cursor_mode : bool;
  line_mode : bool;
  search_mode : bool;
  paging_mode : bool;
  current_buffer : editable_line_t
}.

Definition set_buffer_part (v : buffer_part_t) (l : locals) : locals :=
  mk_locals (Some v) (cut_at_cursor l) (append_mode l) (function_mode l)
    (selection_mode l) (tokenize l) (cursor_mode l) (line_mode l)
    (search_mode l) (paging_mode l) (current_buffer l).

Definition set_append_mode (v : append_mode_t) (l : locals) : locals :=
  mk_locals (buffer_part l) (cut_at_cursor l) (Some v) (function_mode l)
    (selection_mode l) (tokenize l) (cursor_mode l) (line_mode l)
    (search_mode l) (paging_mode l) (current_buffer l).

Definition set_cut_at_cursor (l : locals) : locals :=
  mk_locals (buffer_part l) true (append_mode l) (function_mode l)
    (selection_mode l) (tokenize l) (cursor_mode l) (line_mode l)
    (search_mode l) (paging_mode l) (current_buffer l).

Definition set_function_mode (l : locals) : locals :=
  mk_locals (buffer_part l) (cut_at_cursor l) (append_mode l) true
    (selection_mode l) (tokenize l) (cursor_mode l) (line_mode l)
    (search_mode l) (paging_mode l) (current_buffer l).

Definition set_selection_mode (l : locals) : locals :=
  mk_locals (buffer_part l) (cut_at_cursor l) (append_mode l) (function_mode l)
    true (tokenize l) (cursor_mode l) (line_mode l)
    (search_mode l) (paging_mode l) (current_buffer l).

Definition set_tokenize (l : locals) : locals :=
  mk_locals (buffer_part l) (cut_at_cursor l) (append_mode l) (function_mode l)
    (selection_mode l) true (cursor_mode l) (line_mode l)
    (search_mode l) (paging_mode l) (current_buffer l).

Definition set_cursor_mode (l : locals) : locals :=
  mk_locals (buffer_part l) (cut_at_cursor l) (append_mode l) (function_mode l)
    (selection_mode l) (tokenize l) true (line_mode l)
    (search_mode l) (paging_mode l) (current_buffer l).

Definition set_line_mode (l : locals) : locals :=
  mk_locals (buffer_part l) (cut_at_cursor l) (append_mode l) (function_mode l)
    (selection_mode l) (tokenize l) (cursor_mode l) true
    (search_mode l) (paging_mode l) (current_buffer l).

Definition set_search_mode (l : locals) : locals :=
  mk_locals (buffer_part l) (cut_at_cursor l) (append_mode l) (function_mode l)
    (selection_mode l) (tokenize l) (cursor_mode l) (line_mode l)
    true (paging_mode l) (current_buffer l).

Definition set_paging_mode (l : locals) : locals :=
  mk_locals (buffer_part l) (cut_at_cursor l) (append_mode l) (function_mode l)
    (selection_mode l) (tokenize l) (cursor_mode l) (line_mode l)
    (search_mode l) true (current_buffer l).

Definition set_current_buffer (b : editable_line_t) (l : locals) : locals :=
  mk_locals (buffer_part l) (cut_at_cursor l) (append_mode l) (function_mode l)
    (selection_mode l) (tokenize l) (cursor_mode l) (line_mode l)
    (search_mode l) (paging_mode l) b.

(** What a run of the builtin leaves: the status it returns, its streams
    and the state around it. *)
Record outcome := mk_outcome {
  status : Z;
  out_streams : io_streams_t;
  out_world : world
}.

(** Modelled from the spec: [input_queue_ch] (input_common.cpp), the
    injection of an input function: the key press goes to the back of the
    queue of unused key presses. *)
Definition input_queue_ch (c : wchar_t) (w : world) : world :=
  {| is_main_thread := is_main_thread w;
     reader_buffer := reader_buffer w;
     main_thread_queue := main_thread_queue w;
     input_queue := input_queue w ++ [c] |}.

(** [wcstring(str, pos, n)]: [std::out_of_range] when [pos] is behind the
    end of [str], at most [n] characters otherwise. *)
Definition wcs_substr (str : wcstring) (pos n : Z) : option wcstring :=
  if (0 <=? pos) && (pos <=? wcslen str)
  then Some (firstn (Z.to_nat n) (skipn (Z.to_nat pos) str))
  else None.

Definition is_set {A : Type} (m : option A) : bool :=
  match m with Some _ => true | None => false end.

(** The variables before the option loop: no mode is set, and the buffer
    is the command line the parser substitutes, with the cursor at its
    end, or else the one of the snapshot. *)
Definition initial_locals (substituted : option wcstring)
    (snapshot : reader_snapshot_t) : locals :=
  let current_buffer :=
    match substituted with
    | Some transient_commandline =>
        {| text := transient_commandline;
           position := wcslen transient_commandline |}
    | None => command_line snapshot
    end in
  mk_locals None false None false false false false false false false
    current_buffer.

Section Builtin.
Context {shell : Collaborators}.

(** A message on the error stream followed by the help of the command:
    what the builtin writes before it returns 1. *)
Definition complain (cmd : wcstring) (m : message) (streams : io_streams_t)
    : io_streams_t :=
  stderr_append (builtin_print_help cmd) (stderr_append (append_format m) streams).

(** The [switch (opt)] of the option loop: an early [return] on the left,
    the variables after the case on the right. *)
Definition getopt_case (cmd : wcstring) (opt : getopt_t) (l : locals)
    (streams : io_streams_t) : (Z * io_streams_t) + locals :=
  match opt with
  | opt_0 flag name =>
      if flag then inr l
      else inl (1, complain cmd (BUILTIN_ERR_UNKNOWN cmd name) streams)
  | opt_a => inr (set_append_mode APPEND_MODE l)
  | opt_b => inr (set_buffer_part STRING_MODE l)
  | opt_i => inr (set_append_mode INSERT_MODE l)
  | opt_r => inr (set_append_mode REPLACE_MODE l)
  | opt_c => inr (set_cut_at_cursor l)
  | opt_t => inr (set_buffer_part TOKEN_MODE l)
  | opt_j => inr (set_buffer_part JOB_MODE l)
  | opt_p => inr (set_buffer_part PROCESS_MODE l)
  | opt_f => inr (set_function_mode l)
  | opt_o => inr (set_tokenize l)
  | opt_w => inr l
  | opt_I woptarg =>
      inr (set_current_buffer {| text := woptarg; position := wcslen woptarg |} l)
  | opt_C => inr (set_cursor_mode l)
  | opt_L => inr (set_line_mode l)
  | opt_S => inr (set_search_mode l)
  | opt_s => inr (set_selection_mode l)
  | opt_P => inr (set_paging_mode l)
  | opt_h => inl (0, stdout_append (builtin_print_help cmd) streams)
  | opt_unknown arg => inl (1, stderr_append (builtin_unknown_option cmd arg) streams)
  end.

Fixpoint getopt_loop (cmd : wcstring) (opts : list getopt_t) (l : locals)
    (streams : io_streams_t) : (Z * io_streams_t) + locals :=
  match opts with
  | [] => inr l
  | opt :: opts' =>
      match getopt_case cmd opt l streams with
      | inl r => inl r
      | inr l' => getopt_loop cmd opts' l' streams
      end
  end.

(** The loop of the function mode over the operands. *)
Fixpoint queue_input_functions (cmd : wcstring) (args : list wcstring)
    (streams : io_streams_t) (w : world) : outcome :=
  match args with
  | [] => mk_outcome 0 streams w
  | arg :: args' =>
      match input_function_get_code arg with
      | Some c => queue_input_functions cmd args' streams (input_queue_ch c w)
      | None =>
          mk_outcome 1 (complain cmd (ERR_UNKNOWN_INPUT_FUNCTION cmd arg) streams) w
      end
  end.

(** The part of the buffer the mode selects: the offsets of [begin] and
    [end]. *)
Definition extent (part : buffer_part_t) (current_buffer : editable_line_t)
    : Z * Z :=
  match part with
  | STRING_MODE => (0, 0 + wcslen (text current_buffer))
  | PROCESS_MODE =>
      parse_util_process_extent (text current_buffer) (position current_buffer)
  | JOB_MODE =>
      parse_util_job_extent (text current_buffer) (position current_buffer)
  | TOKEN_MODE =>
      parse_util_token_extent (text current_buffer) (position current_buffer)
  end.

(** The string [sb] of the last case: the operands with a line break
    before each one after the first. *)
Definition join_operands (first : wcstring) (others : list wcstring) : wcstring :=
  fold_left (fun sb arg => (sb ++ [newline]) ++ arg) others first.

(** The final [switch (argc-w.woptind)] and the [return 0] after it. *)
Definition write_or_replace (current_buffer : editable_line_t) (begin end_ : Z)
    (cut_at_cursor tokenize : bool) (append_mode : append_mode_t)
    (args : list wcstring) (streams : io_streams_t) (w : world)
    : option outcome :=
  match args with
  | [] =>
      streams' <- write_part (text current_buffer) (position current_buffer)
                    streams begin end_ cut_at_cursor tokenize ;;
      Some (mk_outcome 0 streams' w)
  | [arg] =>
      w' <- replace_part current_buffer begin end_ arg append_mode w ;;
      Some (mk_outcome 0 streams w')
  | arg :: others =>
      let sb := join_operands arg others in
      w' <- replace_part current_buffer begin end_ sb append_mode w ;;
      Some (mk_outcome 0 streams w')
  end.

(** The part of [builtin_commandline] under [if (cursor_mode)]. *)
Definition cursor_mode_part (cmd : wcstring) (snapshot : reader_snapshot_t)
    (current_buffer : editable_line_t) (args : list wcstring)
    (streams : io_streams_t) (w : world) : outcome :=
  match args with
  | arg :: _ =>
      let r := wcstol arg in
      let new_pos := wcstol_value r in
      let streams' :=
        if negb (wcslen (wcstol_endptr r) =? 0) || wcstol_errno r
        then complain cmd (BUILTIN_ERR_NOT_NUMBER cmd arg) streams
        else streams in
      let current_buffer := command_line snapshot in
      let current_buffer :=
        {| text := text current_buffer;
           position := maxi 0 (mini new_pos (wcslen (text current_buffer))) |} in
      mk_outcome 0 streams' (apply_new_commandline current_buffer w)
  | [] =>
      mk_outcome 0 (stdout_append (format_lu (position current_buffer)) streams) w
  end.

(** The builtin, for the command line [substituted] that the parser holds
    (if any), the last [snapshot] of the reader, the name [cmd] of the
    command ([argv[0]]), the options [opts] in the order [wgetopt_long]
    returns them and the operands [args] ([argv] from [w.woptind] on). *)
Definition builtin_commandline (substituted : option wcstring)
    (snapshot : reader_snapshot_t) (cmd : wcstring) (opts : list getopt_t)
    (args : list wcstring) (streams : io_streams_t) (w : world)
    : option outcome :=
  match getopt_loop cmd opts (initial_locals substituted snapshot) streams with
  | inl (st, streams') => Some (mk_outcome st streams' w)
  | inr l =>
      let nargs := Z.of_nat (List.length args) in
      let special :=
        cursor_mode l || line_mode l || search_mode l || paging_mode l in
      if function_mode l then
        if is_set (buffer_part l) || cut_at_cursor l || is_set (append_mode l)
           || tokenize l || cursor_mode l || line_mode l || search_mode l
           || paging_mode l
        then Some (mk_outcome 1 (complain cmd (BUILTIN_ERR_COMBO cmd) streams) w)
        else if nargs =? 0
        then Some (mk_outcome 1 (complain cmd (BUILTIN_ERR_MISSING cmd) streams) w)
        else Some (queue_input_functions cmd args streams w)
      else if selection_mode l then
        let line := command_line snapshot in
        if selection_is_active snapshot then
          sel <- wcs_substr (text line) (selection_start snapshot)
                   (selection_length snapshot) ;;
          Some (mk_outcome 0 (stdout_append sel streams) w)
        else Some (mk_outcome 0 streams w)
      else if (search_mode l || line_mode l || cursor_mode l || paging_mode l)
              && (1 <? nargs)
      then Some (mk_outcome 1 (complain cmd (ERR_TOO_MANY_ARGUMENTS cmd) streams) w)
      else if (is_set (buffer_part l) || tokenize l || cut_at_cursor l) && special
      then Some (mk_outcome 1 (complain cmd (BUILTIN_ERR_COMBO cmd) streams) w)
      else if (tokenize l || cut_at_cursor l) && negb (nargs =? 0)
      then
        Some (mk_outcome 1
                (complain cmd
                   (BUILTIN_ERR_COMBO2 cmd
                      (L "--cut-at-cursor and --tokenize can not be used when setting the commandline"))
                   streams) w)
      else if is_set (append_mode l) && (nargs =? 0)
      then
        Some (mk_outcome 1
                (complain cmd
                   (BUILTIN_ERR_COMBO2 cmd
                      (L "insertion mode switches can not be used when not in insertion mode"))
                   streams) w)
      else
        let append_mode :=
          match append_mode l with Some m => m | None => REPLACE_MODE end in
        let buffer_part :=
          match buffer_part l with Some p => p | None => STRING_MODE end in
        if cursor_mode l then
          Some (cursor_mode_part cmd snapshot (current_buffer l) args streams w)
        else if line_mode l then
          let line := command_line snapshot in
          Some (mk_outcome 0
                  (stdout_append
                     (format_lu (parse_util_lineno (text line) (position line)))
                     streams) w)
        else if search_mode l then
          Some (mk_outcome (if snapshot_search_mode snapshot then 0 else 1) streams w)
        else if paging_mode l then
          Some (mk_outcome (if has_pager_contents snapshot then 0 else 1) streams w)
        else
          let '(begin, end_) := extent buffer_part (current_buffer l) in
          write_or_replace (current_buffer l) begin end_ (cut_at_cursor l)
            (tokenize l) append_mode args streams w
  end.

End Builtin.

(** ** The words of the design document *)

(** The three parts of a text around an extent. *)
Definition prefix (text : wcstring) (begin : Z) : wcstring := slice text 0 begin.

Definition extentText (text : wcstring) (begin end_ : Z) : wcstring :=
  slice text begin end_.

Definition suffix (text : wcstring) (end_ : Z) : wcstring :=
  slice text end_ (wcslen text).

(** An extent of a text. *)
Definition valid_extent (text : wcstring) (begin end_ : Z) : Prop :=
  0 <= begin /\ begin <= end_ /\ end_ <= wcslen text.

(** The end offset of a token, in the extent that was tokenized. *)
Definition tok_end (t : token) : Z := tok_get_pos t + wcslen (tok_last t).

(** The tokens before the first one whose end offset reaches [relative]. *)
Fixpoint tokens_before (relative : Z) (toks : list token) : list token :=
  match toks with
  | [] => []
  | t :: toks' =>
      if relative <=? tok_end t then [] else t :: tokens_before relative toks'
  end.

Definition is_string (t : token) : bool :=
  match tok_last_type t with TOK_STRING => true | _ => false end.

(** The output lines of a token list: the unescaped string tokens. *)
Definition token_lines {shell : Collaborators} (toks : list token) : list wcstring :=
  map (fun t => unescape_string_in_place (tok_last t)) (filter is_string toks).

(** The text of a list of output lines, each one ended by a line break. *)
Definition lines_text (lines : list wcstring) : wcstring :=
  List.concat (map (fun l => l ++ [newline]) lines).

(** The operands joined by single line breaks. *)
Fixpoint join_lines (first : wcstring) (others : list wcstring) : wcstring :=
  match others with
  | [] => first
  | arg :: others' => first ++ newline :: join_lines arg others'
  end.

(** The clamp of a requested cursor position into a text of length [n]. *)
Definition clamp (new_pos n : Z) : Z := Z.max 0 (Z.min new_pos n).

(** The options of a run that reads or writes a part of the buffer: none
    of the function, selection, cursor, line, search and paging modes. *)
Definition edits_buffer (l : locals) : Prop :=
  function_mode l = false /\ selection_mode l = false /\
  cursor_mode l = false /\ line_mode l = false /\
  search_mode l = false /\ paging_mode l = false.

(** The options of a run of the cursor mode. *)
Definition sets_cursor (l : locals) : Prop :=
  function_mode l = false /\ selection_mode l = false /\
  cursor_mode l = true /\ buffer_part l = None /\
  tokenize l = false /\ cut_at_cursor l = false.

(** The mode of the splice and the part of the buffer after the defaults
    are set. *)
Definition splice_mode (l : locals) : append_mode_t :=
  match append_mode l with Some m => m | None => REPLACE_MODE end.

Definition selected_part (l : locals) : buffer_part_t :=
  match buffer_part l with Some p => p | None => STRING_MODE end.

(** The tokens of ["echo foo; echo bar"]. *)
Definition echo_foo_echo_bar : list token :=
  [ mk_token TOK_STRING 0 (L "echo"); mk_token TOK_STRING 5 (L "foo");
    mk_token TOK_END 8 []; mk_token TOK_STRING 10 (L "echo");
    mk_token TOK_STRING 15 (L "bar") ].

(** A run of the builtin that reports a usage error: it returns a status
    other than 0 and leaves the state around it as it was. *)
Definition reports_usage_error (r : option outcome) (w : world) : Prop :=
  exists o, r = Some o /\ status o <> 0 /\ out_world o = w.

(** ** A plain shell

    Command lines made of words, blanks and [;] only: an instance of the
    collaborators on which the statements below can be run. *)

Definition is_blank (c : wchar_t) : bool := (Z.pos c =? 32) || (Z.pos c =? 9).

Definition is_separator (c : wchar_t) : bool := (Z.pos c =? 59) || (Z.pos c =? 10).

Definition flush_word (word : option (Z * wcstring)) : list token :=
  match word with
  | Some (p, s) => [mk_token TOK_STRING p s]
  | None => []
  end.

(** The tokens of [s], which starts at offset [pos]; [word] is the word
    being read, with the offset of its first character. *)
Fixpoint plain_tokens (s : wcstring) (pos : Z) (word : option (Z * wcstring))
    : list token :=
  match s with
  | [] => flush_word word
  | c :: r =>
      if is_blank c then flush_word word ++ plain_tokens r (pos + 1) None
      else if is_separator c
      then flush_word word ++ mk_token TOK_END pos [] :: plain_tokens r (pos + 1) None
      else
        plain_tokens r (pos + 1)
          (Some match word with
                | Some (p, s') => (p, s' ++ [c])
                | None => (pos, [c])
                end)
  end.

(** A backslash stands for the character after it; one at the very end is
    dropped. *)
Fixpoint plain_unescape (s : wcstring) : wcstring :=
  match s with
  | [] => []
  | c :: r =>
      if Z.pos c =? 92
      then match r with
           | [] => []
           | c' :: r' => c' :: plain_unescape r'
           end
      else c :: plain_unescape r
  end.

(** The string token that holds the cursor, or the empty extent at the
    cursor. *)
Fixpoint plain_token_at (toks : list token) (cursor : Z) : Z * Z :=
  match toks with
  | [] => (cursor, cursor)
  | t :: toks' =>
      if is_string t && (tok_get_pos t <=? cursor) && (cursor <=? tok_end t)
      then (tok_get_pos t, tok_end t)
      else plain_token_at toks' cursor
  end.

(** The command that holds the cursor: from behind the last separator
    before the cursor to the first separator at or behind it. *)
Fixpoint plain_command_at (toks : list token) (cursor begin len : Z) : Z * Z :=
  match toks with
  | [] => (begin, len)
  | t :: toks' =>
      if is_string t then plain_command_at toks' cursor begin len
      else if cursor <=? tok_get_pos t then (begin, tok_get_pos t)
      else plain_command_at toks' cursor (tok_get_pos t + 1) len
  end.

Fixpoint count_newlines (s : wcstring) : Z :=
  match s with
  | [] => 0
  | c :: r => (if Z.pos c =? 10 then 1 else 0) + count_newlines r
  end.

Definition plain_format (m : message) : wcstring :=
  match m with
  | BUILTIN_ERR_UNKNOWN cmd name =>
      (((cmd ++ L ": Unknown option '") ++ name) ++ L "'") ++ [newline]
  | BUILTIN_ERR_COMBO cmd =>
      (cmd ++ L ": Invalid combination of options") ++ [newline]
  | BUILTIN_ERR_MISSING cmd =>
      (cmd ++ L ": Expected argument") ++ [newline]
  | ERR_UNKNOWN_INPUT_FUNCTION cmd arg =>
      (((cmd ++ L ": Unknown input function '") ++ arg) ++ L "'") ++ [newline]
  | ERR_TOO_MANY_ARGUMENTS cmd => cmd
  | BUILTIN_ERR_COMBO2 cmd why =>
      (((cmd ++ L ": Invalid combination of options,") ++ [newline]) ++ why)
        ++ [newline]
  | BUILTIN_ERR_NOT_NUMBER cmd arg =>
      (((cmd ++ L ": Argument '") ++ arg) ++ L "' is not a number") ++ [newline]
  end.

Definition plain_shell : Collaborators := {|
  tokenizer_t := fun s => plain_tokens s 0 None;
  unescape_string_in_place := plain_unescape;
  parse_util_process_extent := fun s cursor =>
    plain_command_at (plain_tokens s 0 None) cursor 0 (wcslen s);
  parse_util_job_extent := fun s cursor =>
    plain_command_at (plain_tokens s 0 None) cursor 0 (wcslen s);
  parse_util_token_extent := fun s cursor =>
    plain_token_at (plain_tokens s 0 None) cursor;
  parse_util_lineno := fun s pos => 1 + count_newlines (firstn (Z.to_nat pos) s);
  input_function_get_code := fun _ => None;
  append_format := plain_format;
  builtin_print_help := fun cmd => (L "usage: " ++ cmd) ++ [newline];
  builtin_unknown_option := fun cmd arg =>
    (((cmd ++ L ": Unknown option '") ++ arg) ++ L "'") ++ [newline]
|}.


(** ** More words for the statements *)

(** A line whose cursor is an offset of its text. *)
Definition line_ok (line : editable_line_t) : Prop :=
  0 <= position line /\ position line <= wcslen (text line).

(** An option other than the three that select the job, the process or the
    token under the cursor. *)
Definition keeps_whole_buffer (opt : getopt_t) : Prop :=
  match opt with
  | opt_t | opt_j | opt_p => False
  | _ => True
  end.

(** What the splice puts between the prefix and the suffix of the text. *)
Definition spliced_text (buffer : editable_line_t) (begin end_ : Z)
    (insert : wcstring) (mode : append_mode_t) : wcstring :=
  match mode with
  | REPLACE_MODE => insert
  | APPEND_MODE => extentText (text buffer) begin end_ ++ insert
  | INSERT_MODE =>
      slice (text buffer) begin (position buffer) ++ insert
        ++ slice (text buffer) (position buffer) end_
  end.

(** The cursor after the splice. *)
Definition spliced_cursor (buffer : editable_line_t) (begin : Z)
    (insert : wcstring) (mode : append_mode_t) : Z :=
  match mode with
  | REPLACE_MODE => begin + wcslen insert
  | APPEND_MODE => position buffer
  | INSERT_MODE => position buffer + wcslen insert
  end.



(** The decimal digits of a number, as ["%lu"] prints them. *)
Definition decimal_digits (n : Z) : wcstring :=
  L (NilZero.string_of_uint (N.to_uint (Z.to_N n))).

(** A state around the builtin in which every line, the one of the reader
    and the ones queued for the main thread, has its cursor in its text. *)
Definition world_ok (w : world) : Prop :=
  line_ok (reader_buffer w) /\ Forall line_ok (main_thread_queue w).

(** The value of a decimal numeral read from the left, from the value
    [acc] of the digits before it. *)
Fixpoint uint_value (d : Decimal.uint) (acc : Z) : Z :=
  match d with
  | Decimal.Nil => acc
  | Decimal.D0 d' => uint_value d' (acc * 10 + 0)
  | Decimal.D1 d' => uint_value d' (acc * 10 + 1)
  | Decimal.D2 d' => uint_value d' (acc * 10 + 2)
  | Decimal.D3 d' => uint_value d' (acc * 10 + 3)
  | Decimal.D4 d' => uint_value d' (acc * 10 + 4)
  | Decimal.D5 d' => uint_value d' (acc * 10 + 5)
  | Decimal.D6 d' => uint_value d' (acc * 10 + 6)
  | Decimal.D7 d' => uint_value d' (acc * 10 + 7)
  | Decimal.D8 d' => uint_value d' (acc * 10 + 8)
  | Decimal.D9 d' => uint_value d' (acc * 10 + 9)
  end.


(** The line that an edit of the whole buffer builds from the line [old]
    and the string [sb] of the operands. *)
Definition whole_buffer_edit (mode : append_mode_t) (old : editable_line_t)
    (sb : wcstring) : editable_line_t :=
  match mode with
  | REPLACE_MODE => {| text := sb; position := wcslen sb |}
  | APPEND_MODE => {| text := text old ++ sb; position := position old |}
  | INSERT_MODE =>
      {| text := slice (text old) 0 (position old) ++ sb
                   ++ slice (text old) (position old) (wcslen (text old));
         position := position old + wcslen sb |}
  end.
(** * Properties *)

(** ** Reading the buffer inside its bounds *)

Lemma wcslen_nonneg (s : wcstring) : 0 <= wcslen s.
Proof. unfold wcslen. lia. Qed.

Lemma wcslen_app (s t : wcstring) : wcslen (s ++ t) = wcslen s + wcslen t.
Proof. unfold wcslen. rewrite length_app. lia. Qed.

Lemma wcs_chars_slice (s : wcstring) (i j : Z) :
  0 <= i -> i <= j -> j <= wcslen s ->
  wcs_chars s i (j - i) = Some (slice s i j).
Proof.
  intros Hi Hij Hj. unfold wcs_chars, slice.
  replace ((0 <=? i) && (0 <=? j - i) && (i + (j - i) <=? wcslen s)) with true;
    [reflexivity|].
  symmetry. rewrite !andb_true_iff, !Z.leb_le. lia.
Qed.

Lemma wcs_chars_negative (s : wcstring) (off n : Z) :
  n < 0 -> wcs_chars s off n = None.
Proof.
  intros Hn. unfold wcs_chars.
  replace (0 <=? n) with false by (symmetry; apply Z.leb_gt; lia).
  now rewrite andb_false_r.
Qed.

Lemma wcs_tail_suffix (s : wcstring) (i : Z) :
  0 <= i -> i <= wcslen s -> wcs_tail s i = Some (suffix s i).
Proof.
  intros Hi Hj. unfold wcs_tail, suffix, slice.
  replace ((0 <=? i) && (i <=? wcslen s)) with true
    by (symmetry; rewrite andb_true_iff, !Z.leb_le; lia).
  f_equal. symmetry. apply firstn_all2.
  rewrite length_skipn. unfold wcslen. lia.
Qed.

Lemma slice_length (s : wcstring) (i j : Z) :
  0 <= i -> i <= j -> j <= wcslen s -> wcslen (slice s i j) = j - i.
Proof.
  intros Hi Hij Hj. unfold slice, wcslen in *.
  rewrite length_firstn, length_skipn. lia.
Qed.

(** A slice of a slice is a slice of the text. *)
Lemma slice_slice (s : wcstring) (b e i j : Z) :
  0 <= b -> 0 <= i -> i <= j -> j <= e - b ->
  slice (slice s b e) i j = slice s (b + i) (b + j).
Proof.
  intros Hb Hi Hij Hj. unfold slice.
  rewrite skipn_firstn_comm, firstn_firstn, skipn_skipn.
  f_equal; [lia|]. f_equal. lia.
Qed.

(** Lossless decomposition: the three parts of a text around an extent. *)
Lemma prefix_extent_suffix (s : wcstring) (b e : Z) :
  valid_extent s b e -> prefix s b ++ extentText s b e ++ suffix s e = s.
Proof.
  intros (Hb & Hbe & He). unfold prefix, extentText, suffix, slice.
  rewrite (firstn_all2 (n := Z.to_nat (wcslen s - e)))
    by (rewrite length_skipn; unfold wcslen; lia).
  replace (Z.to_nat e) with (Z.to_nat (e - b) + Z.to_nat b)%nat by lia.
  rewrite <- skipn_skipn, firstn_skipn.
  replace (Z.to_nat (b - 0)) with (Z.to_nat b) by lia.
  apply firstn_skipn.
Qed.

Ltac in_bounds :=
  unfold valid_extent in *; cbn [text position] in *; lia.

(** ** The line that [replace_part] builds, mode by mode *)

Section Splice.
Variables (buffer : editable_line_t) (begin end_ : Z) (insert : wcstring).
Hypothesis Hextent : valid_extent (text buffer) begin end_.

Lemma replace_line :
  replace_part_line buffer begin end_ insert REPLACE_MODE
  = Some {| text := prefix (text buffer) begin ++ insert
                      ++ suffix (text buffer) end_;
            position := begin + wcslen insert |}.
Proof.
  unfold replace_part_line.
  replace begin with (begin - 0) at 1 by lia.
  rewrite wcs_chars_slice by in_bounds. cbn [bind fst snd].
  rewrite wcs_tail_suffix by in_bounds. cbn [bind].
  unfold prefix. rewrite <- app_assoc. do 2 f_equal. lia.
Qed.

Lemma append_line :
  replace_part_line buffer begin end_ insert APPEND_MODE
  = Some {| text := prefix (text buffer) begin
                      ++ extentText (text buffer) begin end_
                      ++ insert ++ suffix (text buffer) end_;
            position := position buffer |}.
Proof.
  unfold replace_part_line.
  replace begin with (begin - 0) at 1 by lia.
  rewrite !wcs_chars_slice by in_bounds. cbn [bind fst snd].
  rewrite wcs_tail_suffix by in_bounds. cbn [bind].
  unfold prefix, extentText. now rewrite <- !app_assoc.
Qed.

Lemma insert_line :
  begin <= position buffer -> position buffer <= end_ ->
  replace_part_line buffer begin end_ insert INSERT_MODE
  = Some {| text := prefix (text buffer) begin
                      ++ slice (text buffer) begin (position buffer)
                      ++ insert
                      ++ slice (text buffer) (position buffer) end_
                      ++ suffix (text buffer) end_;
            position := position buffer + wcslen insert |}.
Proof.
  intros Hlo Hhi. unfold replace_part_line.
  replace begin with (begin - 0) at 1 by lia.
  rewrite wcs_chars_slice by in_bounds. cbn [bind].
  rewrite wcs_chars_slice by in_bounds. cbn [bind].
  replace (begin + (position buffer - begin)) with (position buffer) by lia.
  replace (end_ - begin - (position buffer - begin))
    with (end_ - position buffer) by lia.
  rewrite wcs_chars_slice by in_bounds. cbn [bind fst snd].
  rewrite wcs_tail_suffix by in_bounds. cbn [bind].
  unfold prefix. now rewrite <- !app_assoc.
Qed.

(** With the cursor outside the extent the insert mode hands a negative
    count to the string: the function does not come back. *)
Lemma insert_line_outside :
  position buffer < begin \/ end_ < position buffer ->
  replace_part_line buffer begin end_ insert INSERT_MODE = None.
Proof.
  intros Hout. unfold replace_part_line.
  replace begin with (begin - 0) at 1 by lia.
  rewrite wcs_chars_slice by in_bounds. cbn [bind].
  destruct Hout as [Hlt | Hgt].
  - rewrite wcs_chars_negative by lia. reflexivity.
  - destruct (wcs_chars (text buffer) begin (position buffer - begin));
      cbn [bind]; [|reflexivity].
    rewrite wcs_chars_negative by lia. reflexivity.
Qed.

End Splice.

Lemma replace_part_applies (buffer : editable_line_t) (begin end_ : Z)
    (insert : wcstring) (mode : append_mode_t) (w : world)
    (r : option editable_line_t) :
  replace_part_line buffer begin end_ insert mode = r ->
  replace_part buffer begin end_ insert mode w
  = option_map (fun tmp => apply_new_commandline tmp w) r.
Proof. intros <-. unfold replace_part. now destruct replace_part_line. Qed.

(** ** The splice *)

(** C1. For every text, every valid extent and every insert string, the
    splice in replace mode builds the text [prefix + insertText + suffix]
    and the cursor [begin + length(insertText)], and hands this line to
    [apply_new_commandline]; over the extent [2,5) of ["abcdef"] the string
    ["XY"] gives the text ["abXYf"] and the cursor 4. *)
Theorem replace_mode_splice :
  (forall (buffer : editable_line_t) (begin end_ : Z) (insert : wcstring)
          (w : world),
      valid_extent (text buffer) begin end_ ->
      let new_line :=
        {| text := prefix (text buffer) begin ++ insert
                     ++ suffix (text buffer) end_;
           position := begin + wcslen insert |} in
      replace_part_line buffer begin end_ insert REPLACE_MODE = Some new_line /\
      replace_part buffer begin end_ insert REPLACE_MODE w
      = Some (apply_new_commandline new_line w))
  /\ (forall cursor : Z,
         replace_part_line (mk_line (L "abcdef") cursor) 2 5 (L "XY") REPLACE_MODE
         = Some (mk_line (L "abXYf") 4)).
Proof.
  split; [|reflexivity].
  intros buffer begin end_ insert w Hext new_line.
  pose proof (replace_line buffer begin end_ insert Hext) as Hline.
  split; [exact Hline|].
  now rewrite (replace_part_applies _ _ _ _ _ w _ Hline).
Qed.

Lemma replace_mode_splice_witness :
  valid_extent (L "abcdef") 2 5 /\
  replace_part_line (mk_line (L "abcdef") 0) 2 5 (L "XY") REPLACE_MODE
  = Some (mk_line (L "abXYf") 4).
Proof.
  assert (Hext : valid_extent (text (mk_line (L "abcdef") 0)) 2 5)
    by (unfold valid_extent, wcslen; simpl; lia).
  split; [exact Hext|].
  exact (proj1 (proj1 replace_mode_splice (mk_line (L "abcdef") 0) 2 5 (L "XY")
                  (mk_world true (mk_line [] 0) [] []) Hext)).
Defined.

(** C2. For every text, every cursor inside it, every valid extent and
    every insert string, the splice in append mode builds the text
    [prefix + extentText + insertText + suffix] and keeps the cursor at its
    original absolute value, whatever the length of the insert string; over
    the extent [1,4) of ["abcdef"] with the cursor at 0 the string ["Q"]
    gives the text ["abcdQef"] and the cursor 0. *)
Theorem append_mode_splice :
  (forall (buffer : editable_line_t) (begin end_ : Z) (insert : wcstring)
          (w : world),
      position buffer <= wcslen (text buffer) ->
      valid_extent (text buffer) begin end_ ->
      let new_line :=
        {| text := prefix (text buffer) begin
                     ++ extentText (text buffer) begin end_
                     ++ insert ++ suffix (text buffer) end_;
           position := position buffer |} in
      replace_part_line buffer begin end_ insert APPEND_MODE = Some new_line /\
      replace_part buffer begin end_ insert APPEND_MODE w
      = Some (apply_new_commandline new_line w))
  /\ replace_part_line (mk_line (L "abcdef") 0) 1 4 (L "Q") APPEND_MODE
     = Some (mk_line (L "abcdQef") 0).
Proof.
  split; [|reflexivity].
  intros buffer begin end_ insert w _ Hext new_line.
  pose proof (append_line buffer begin end_ insert Hext) as Hline.
  split; [exact Hline|].
  now rewrite (replace_part_applies _ _ _ _ _ w _ Hline).
Qed.

Lemma append_mode_splice_witness :
  0 <= wcslen (L "abcdef") /\ valid_extent (L "abcdef") 1 4 /\
  replace_part_line (mk_line (L "abcdef") 0) 1 4 (L "Q") APPEND_MODE
  = Some (mk_line (L "abcdQef") 0).
Proof.
  assert (Hcur : position (mk_line (L "abcdef") 0)
                 <= wcslen (text (mk_line (L "abcdef") 0)))
    by (unfold wcslen; simpl; lia).
  assert (Hext : valid_extent (text (mk_line (L "abcdef") 0)) 1 4)
    by (unfold valid_extent, wcslen; simpl; lia).
  split; [exact Hcur|]. split; [exact Hext|].
  exact (proj1 (proj1 append_mode_splice (mk_line (L "abcdef") 0) 1 4 (L "Q")
                  (mk_world true (mk_line [] 0) [] []) Hcur Hext)).
Defined.

(** C3. For every text, every valid extent, every insert string and every
    cursor with [begin <= cursor <= end], the splice in insert mode, with
    [relative = cursor - begin], builds the text
    [prefix + extentText[0:relative] + insertText +
     extentText[relative:length(extentText)] + suffix]
    and the cursor [cursor + length(insertText)]; in the extent [1,5) of
    ["abcdef"] with the cursor at 3 the string ["Z"] gives the text
    ["abcZdef"] and the cursor 4. *)
Theorem insert_mode_splice :
  (forall (buffer : editable_line_t) (begin end_ : Z) (insert : wcstring)
          (w : world),
      valid_extent (text buffer) begin end_ ->
      begin <= position buffer -> position buffer <= end_ ->
      let relative := position buffer - begin in
      let extent_text := extentText (text buffer) begin end_ in
      let new_line :=
        {| text := prefix (text buffer) begin
                     ++ slice extent_text 0 relative
                     ++ insert
                     ++ slice extent_text relative (wcslen extent_text)
                     ++ suffix (text buffer) end_;
           position := position buffer + wcslen insert |} in
      replace_part_line buffer begin end_ insert INSERT_MODE = Some new_line /\
      replace_part buffer begin end_ insert INSERT_MODE w
      = Some (apply_new_commandline new_line w))
  /\ replace_part_line (mk_line (L "abcdef") 3) 1 5 (L "Z") INSERT_MODE
     = Some (mk_line (L "abcZdef") 4).
Proof.
  split; [|reflexivity].
  intros buffer begin end_ insert w Hext Hlo Hhi relative extent_text new_line.
  assert (Hline : replace_part_line buffer begin end_ insert INSERT_MODE
                  = Some new_line).
  { rewrite insert_line by assumption.
    unfold new_line, extent_text, extentText, relative.
    rewrite slice_length by in_bounds.
    rewrite !slice_slice by in_bounds.
    replace (begin + 0) with begin by lia.
    replace (begin + (position buffer - begin)) with (position buffer) by lia.
    replace (begin + (end_ - begin)) with end_ by lia.
    reflexivity. }
  split; [exact Hline|].
  now rewrite (replace_part_applies _ _ _ _ _ w _ Hline).
Qed.

Lemma insert_mode_splice_witness :
  valid_extent (L "abcdef") 1 5 /\ 1 <= 3 /\ 3 <= 5 /\
  replace_part_line (mk_line (L "abcdef") 3) 1 5 (L "Z") INSERT_MODE
  = Some (mk_line (L "abcZdef") 4).
Proof.
  assert (Hext : valid_extent (text (mk_line (L "abcdef") 3)) 1 5)
    by (unfold valid_extent, wcslen; simpl; lia).
  assert (Hlo : 1 <= position (mk_line (L "abcdef") 3)) by (simpl; lia).
  assert (Hhi : position (mk_line (L "abcdef") 3) <= 5) by (simpl; lia).
  split; [exact Hext|]. split; [exact Hlo|]. split; [exact Hhi|].
  exact (proj1 (proj1 insert_mode_splice (mk_line (L "abcdef") 3) 1 5 (L "Z")
                  (mk_world true (mk_line [] 0) [] []) Hext Hlo Hhi)).
Defined.

(** C8. The cursor of the line stays inside its text: for every buffer
    with [cursor <= length(text)] and every valid extent, the splice in
    replace mode, in append mode, and in insert mode with
    [begin <= cursor <= end], builds a new line, hands it to
    [apply_new_commandline], and its cursor is at most the length of its
    text. *)
Theorem splice_keeps_cursor_in_text :
  forall (buffer : editable_line_t) (begin end_ : Z) (insert : wcstring)
         (mode : append_mode_t) (w : world),
    position buffer <= wcslen (text buffer) ->
    valid_extent (text buffer) begin end_ ->
    (mode = INSERT_MODE -> begin <= position buffer /\ position buffer <= end_) ->
    exists new_line : editable_line_t,
      replace_part_line buffer begin end_ insert mode = Some new_line /\
      replace_part buffer begin end_ insert mode w
      = Some (apply_new_commandline new_line w) /\
      position new_line <= wcslen (text new_line) /\
      (0 <= position buffer -> 0 <= position new_line).
Proof.
  intros buffer begin end_ insert mode w Hcur Hext Hins.
  pose proof (wcslen_nonneg insert) as Hinsert.
  assert (Hline : exists new_line,
             replace_part_line buffer begin end_ insert mode = Some new_line /\
             position new_line <= wcslen (text new_line) /\
             (0 <= position buffer -> 0 <= position new_line)).
  { destruct mode.
    - eexists. split; [apply replace_line; assumption|].
      cbn [text position]. unfold prefix, suffix.
      rewrite !wcslen_app, !slice_length by in_bounds. in_bounds.
    - destruct (Hins eq_refl) as [Hlo Hhi].
      eexists. split; [apply insert_line; assumption|].
      cbn [text position]. unfold prefix, suffix.
      rewrite !wcslen_app, !slice_length by in_bounds. in_bounds.
    - eexists. split; [apply append_line; assumption|].
      cbn [text position]. unfold prefix, extentText, suffix.
      rewrite !wcslen_app, !slice_length by in_bounds. in_bounds. }
  destruct Hline as (new_line & Hline & Hinv).
  exists new_line. split; [exact Hline|]. split; [|exact Hinv].
  now rewrite (replace_part_applies _ _ _ _ _ w _ Hline).
Qed.

Lemma splice_keeps_cursor_in_text_witness :
  exists new_line : editable_line_t,
    replace_part_line (mk_line (L "abcdef") 3) 1 5 (L "Z") INSERT_MODE
    = Some new_line /\
    position new_line <= wcslen (text new_line).
Proof.
  assert (Hcur : position (mk_line (L "abcdef") 3)
                 <= wcslen (text (mk_line (L "abcdef") 3)))
    by (unfold wcslen; simpl; lia).
  assert (Hext : valid_extent (text (mk_line (L "abcdef") 3)) 1 5)
    by (unfold valid_extent, wcslen; simpl; lia).
  assert (Hins : INSERT_MODE = INSERT_MODE ->
                 1 <= position (mk_line (L "abcdef") 3) /\
                 position (mk_line (L "abcdef") 3) <= 5)
    by (intros _; simpl; lia).
  destruct (splice_keeps_cursor_in_text (mk_line (L "abcdef") 3) 1 5 (L "Z")
              INSERT_MODE (mk_world true (mk_line [] 0) [] []) Hcur Hext Hins)
    as (new_line & Hline & _ & Hinv & _).
  exists new_line. split; [exact Hline | exact Hinv].
Defined.

(** ** The dispatch of the builtin *)

Section Dispatch.
Context {shell : Collaborators}.
Variables (substituted : option wcstring) (snapshot : reader_snapshot_t)
  (cmd : wcstring) (opts : list getopt_t) (streams : io_streams_t) (w : world)
  (l : locals).
Hypothesis Hopts :
  getopt_loop cmd opts (initial_locals substituted snapshot) streams = inr l.

(** A run with operands and without [--cut-at-cursor] and [--tokenize]
    that edits the buffer reaches the final [switch] with the extent of the
    selected part. *)
Lemma builtin_reaches_switch (args : list wcstring) :
  edits_buffer l -> tokenize l = false -> cut_at_cursor l = false ->
  args <> [] ->
  builtin_commandline substituted snapshot cmd opts args streams w
  = write_or_replace (current_buffer l)
      (fst (extent (selected_part l) (current_buffer l)))
      (snd (extent (selected_part l) (current_buffer l)))
      false false (splice_mode l) args streams w.
Proof.
  intros (Hf & Hs & Hc & Hl & Hse & Hp) Htok Hcut Hargs.
  unfold builtin_commandline. rewrite Hopts.
  unfold selected_part, splice_mode.
  destruct l as [part cut mode fm sm tok cm lm sem pm cb].
  cbn in Hf, Hs, Hc, Hl, Hse, Hp, Htok, Hcut. subst.
  destruct args as [|arg others]; [congruence|].
  cbn [function_mode selection_mode cursor_mode line_mode search_mode
       paging_mode tokenize cut_at_cursor buffer_part append_mode
       current_buffer orb andb].
  replace (Z.of_nat (List.length (arg :: others)) =? 0) with false
    by (symmetry; apply Z.eqb_neq; cbn [List.length]; lia).
  rewrite !orb_false_r, !andb_false_r. cbn [negb andb].
  now destruct (extent _ _).
Qed.

(** A run of the cursor mode with one operand reaches the code under
    [if (cursor_mode)]. *)
Lemma builtin_reaches_cursor_mode (arg : wcstring) :
  sets_cursor l ->
  builtin_commandline substituted snapshot cmd opts [arg] streams w
  = Some (cursor_mode_part cmd snapshot (current_buffer l) [arg] streams w).
Proof.
  intros (Hf & Hs & Hc & Hpart & Htok & Hcut).
  unfold builtin_commandline. rewrite Hopts.
  destruct l as [part cut mode fm sm tok cm lm sem pm cb].
  cbn in Hf, Hs, Hc, Hpart, Htok, Hcut. subst.
  cbn [function_mode selection_mode cursor_mode line_mode search_mode
       paging_mode tokenize cut_at_cursor buffer_part append_mode
       current_buffer orb andb is_set List.length].
  rewrite !orb_true_r. cbn. rewrite andb_false_r. reflexivity.
Qed.

End Dispatch.

(** What the code under [if (cursor_mode)] does with an operand: with or
    without a complaint, the clamped position is applied and the status
    is 0. *)
Lemma cursor_mode_part_applies {shell : Collaborators} (cmd : wcstring)
    (snapshot : reader_snapshot_t) (current_buffer : editable_line_t)
    (arg : wcstring) (streams : io_streams_t) (w : world) :
  let line := command_line snapshot in
  let r := wcstol arg in
  cursor_mode_part cmd snapshot current_buffer [arg] streams w
  = mk_outcome 0
      (if negb (wcslen (wcstol_endptr r) =? 0) || wcstol_errno r
       then complain cmd (BUILTIN_ERR_NOT_NUMBER cmd arg) streams
       else streams)
      (apply_new_commandline
         {| text := text line;
            position := clamp (wcstol_value r) (wcslen (text line)) |} w).
Proof. reflexivity. Qed.

Lemma wcslen_zero (s : wcstring) : (wcslen s =? 0) = true <-> s = [].
Proof.
  rewrite Z.eqb_eq. unfold wcslen. destruct s; cbn [List.length]; split;
    intros; (reflexivity || lia || discriminate).
Qed.

(** The string the code builds from several operands. *)
Lemma join_lines_app (p first : wcstring) (others : list wcstring) :
  join_lines (p ++ first) others = p ++ join_lines first others.
Proof. destruct others; cbn [join_lines]; [reflexivity|]. now rewrite app_assoc. Qed.

Lemma join_operands_lines (first : wcstring) (others : list wcstring) :
  join_operands first others = join_lines first others.
Proof.
  unfold join_operands. revert first.
  induction others as [|arg others IH]; intros first; cbn [fold_left join_lines].
  - reflexivity.
  - rewrite IH, join_lines_app, <- app_assoc. reflexivity.
Qed.

(** The final [switch] in insert mode with the cursor outside the extent:
    [replace_part] does not come back, and so neither does the builtin. *)
Lemma write_or_replace_insert_outside {shell : Collaborators}
    (current_buffer : editable_line_t) (begin end_ : Z)
    (cut_at_cursor tokenize : bool) (arg : wcstring) (others : list wcstring)
    (streams : io_streams_t) (w : world) :
  valid_extent (text current_buffer) begin end_ ->
  position current_buffer < begin \/ end_ < position current_buffer ->
  replace_part current_buffer begin end_ (join_lines arg others) INSERT_MODE w
  = None /\
  write_or_replace current_buffer begin end_ cut_at_cursor tokenize INSERT_MODE
    (arg :: others) streams w = None.
Proof.
  intros Hext Hout.
  pose proof (insert_line_outside current_buffer begin end_
                (join_lines arg others) Hext Hout) as Hline.
  pose proof (replace_part_applies _ _ _ _ _ w _ Hline) as Hpart.
  cbn [option_map] in Hpart.
  split; [exact Hpart|].
  unfold write_or_replace.
  destruct others as [|arg' others'].
  - cbn [join_lines] in Hpart. now rewrite Hpart.
  - rewrite join_operands_lines, Hpart. reflexivity.
Qed.

Lemma builtin_insert_outside_extent {shell : Collaborators}
    (substituted : option wcstring) (snapshot : reader_snapshot_t)
    (cmd : wcstring) (opts : list getopt_t) (arg : wcstring)
    (others : list wcstring) (streams : io_streams_t) (w : world) (l : locals) :
  getopt_loop cmd opts (initial_locals substituted snapshot) streams = inr l ->
  edits_buffer l -> tokenize l = false -> cut_at_cursor l = false ->
  append_mode l = Some INSERT_MODE ->
  let line := current_buffer l in
  let begin := fst (extent (selected_part l) line) in
  let end_ := snd (extent (selected_part l) line) in
  valid_extent (text line) begin end_ ->
  position line < begin \/ end_ < position line ->
  builtin_commandline substituted snapshot cmd opts (arg :: others) streams w
  = None.
Proof.
  intros Hopts Hl Htok Hcut Hmode line begin end_ Hext Hout.
  rewrite (builtin_reaches_switch _ _ _ _ _ _ _ Hopts (arg :: others) Hl Htok
             Hcut) by discriminate.
  unfold splice_mode. rewrite Hmode.
  now apply write_or_replace_insert_outside.
Qed.

(** C4, amended.  A splice in insert mode with the cursor outside the
    target extent is not checked: [replace_part] has no test of the cursor
    and the builtin no usage error for it.  For every valid extent, every
    cursor before [begin] or behind [end] and every operand list, the
    string operations get a negative count, so that neither [replace_part]
    nor the final [switch] of the builtin comes back: no line, partial or
    whole, reaches [apply_new_commandline], and no status and no message
    are produced. *)
Theorem insert_outside_extent_is_not_checked :
  forall (shell : Collaborators) (current_buffer : editable_line_t)
         (begin end_ : Z) (cut_at_cursor tokenize : bool) (arg : wcstring)
         (others : list wcstring) (streams : io_streams_t) (w : world),
    valid_extent (text current_buffer) begin end_ ->
    position current_buffer < begin \/ end_ < position current_buffer ->
    replace_part_line current_buffer begin end_ (join_lines arg others)
      INSERT_MODE = None /\
    replace_part current_buffer begin end_ (join_lines arg others)
      INSERT_MODE w = None /\
    write_or_replace current_buffer begin end_ cut_at_cursor tokenize
      INSERT_MODE (arg :: others) streams w = None.
Proof.
  intros shell cb begin end_ cut tok arg others streams w Hext Hout.
  split; [now apply insert_line_outside|].
  now apply write_or_replace_insert_outside.
Qed.

Lemma insert_outside_extent_is_not_checked_witness :
  valid_extent (L "abcdef") 1 5 /\ (0 < 1 \/ 5 < 0) /\
  write_or_replace (shell := plain_shell) (mk_line (L "abcdef") 0) 1 5 false false
    INSERT_MODE
    [L "Z"] (mk_streams [] []) (mk_world true (mk_line (L "abcdef") 0) [] [])
  = None.
Proof.
  assert (Hext : valid_extent (text (mk_line (L "abcdef") 0)) 1 5)
    by (unfold valid_extent, wcslen; simpl; lia).
  assert (Hout : position (mk_line (L "abcdef") 0) < 1
                 \/ 5 < position (mk_line (L "abcdef") 0))
    by (simpl; lia).
  split; [exact Hext|]. split; [exact Hout|].
  exact (proj2 (proj2 (insert_outside_extent_is_not_checked plain_shell (mk_line (L "abcdef") 0) 1 5
                         false false (L "Z") [] (mk_streams [] [])
                         (mk_world true (mk_line (L "abcdef") 0) [] [])
                         Hext Hout))).
Defined.

(** C4 as it is written fails: the insert of ["Z"] into the extent [1,5)
    of ["abcdef"] with the cursor at 0, outside the extent, is not reported
    as a usage error. *)
Lemma insert_outside_extent_not_reported :
  ~ reports_usage_error
      (write_or_replace (shell := plain_shell) (mk_line (L "abcdef") 0) 1 5
         false false INSERT_MODE [L "Z"] (mk_streams [] [])
         (mk_world true (mk_line (L "abcdef") 0) [] []))
      (mk_world true (mk_line (L "abcdef") 0) [] []).
Proof. intros (o & Ho & _). vm_compute in Ho. discriminate Ho. Qed.

(** C5, on the code.  When the operand of the cursor mode is not a number
    ([wcstol] stops before its end or sets [errno]) the builtin writes its
    complaint and the help on the error stream and then goes on: the
    position that [wcstol] returned is clamped and applied to the buffer of
    the reader, and the status is 0. *)
Theorem cursor_not_a_number_is_applied :
  forall (shell : Collaborators) (substituted : option wcstring)
         (snapshot : reader_snapshot_t) (cmd : wcstring) (opts : list getopt_t)
         (arg : wcstring) (streams : io_streams_t) (w : world) (l : locals),
    getopt_loop cmd opts (initial_locals substituted snapshot) streams = inr l ->
    sets_cursor l ->
    wcstol_endptr (wcstol arg) <> [] \/ wcstol_errno (wcstol arg) = true ->
    let line := command_line snapshot in
    builtin_commandline substituted snapshot cmd opts [arg] streams w
    = Some (mk_outcome 0
              (complain cmd (BUILTIN_ERR_NOT_NUMBER cmd arg) streams)
              (apply_new_commandline
                 {| text := text line;
                    position := clamp (wcstol_value (wcstol arg))
                                  (wcslen (text line)) |} w)).
Proof.
  intros C substituted snapshot cmd opts arg streams w l Hopts Hl Hbad line.
  rewrite (builtin_reaches_cursor_mode _ _ _ _ _ _ _ Hopts arg Hl).
  rewrite cursor_mode_part_applies.
  replace (negb (wcslen (wcstol_endptr (wcstol arg)) =? 0)
           || wcstol_errno (wcstol arg)) with true; [reflexivity|].
  symmetry. apply orb_true_iff. destruct Hbad as [Hend | Herr].
  - left. apply negb_true_iff.
    destruct (wcslen (wcstol_endptr (wcstol arg)) =? 0) eqn:E; [|reflexivity].
    apply wcslen_zero in E. contradiction.
  - now right.
Qed.

Lemma cursor_not_a_number_is_applied_witness :
  sets_cursor (set_cursor_mode
                 (initial_locals None
                    (mk_snapshot (mk_line (L "hello") 3) false 0 0 false false)))
  /\ wcstol_endptr (wcstol (L "abc")) <> []
  /\ builtin_commandline (shell := plain_shell) None
       (mk_snapshot (mk_line (L "hello") 3) false 0 0 false false)
       (L "commandline") [opt_C] [L "abc"] (mk_streams [] [])
       (mk_world true (mk_line (L "hello") 3) [] [])
     = Some (mk_outcome 0
               (complain (shell := plain_shell) (L "commandline")
                  (BUILTIN_ERR_NOT_NUMBER (L "commandline") (L "abc"))
                  (mk_streams [] []))
               (mk_world true (mk_line (L "hello") 0) [] [])).
Proof.
  assert (Hl : sets_cursor
                 (set_cursor_mode
                    (initial_locals None
                       (mk_snapshot (mk_line (L "hello") 3) false 0 0 false
                          false))))
    by (unfold sets_cursor; simpl; repeat split; reflexivity).
  assert (Hbad : wcstol_endptr (wcstol (L "abc")) <> []
                 \/ wcstol_errno (wcstol (L "abc")) = true)
    by (left; vm_compute; discriminate).
  split; [exact Hl|]. split; [vm_compute; discriminate|].
  exact (cursor_not_a_number_is_applied plain_shell None
           (mk_snapshot (mk_line (L "hello") 3) false 0 0 false false)
           (L "commandline") [opt_C] (L "abc") (mk_streams [] [])
           (mk_world true (mk_line (L "hello") 3) [] []) _ eq_refl Hl Hbad).
Defined.

(** The other complaints of the cursor mode do end the run: with more than
    one operand the builtin returns 1 and leaves the reader alone. *)
Lemma cursor_too_many_arguments_reported {shell : Collaborators}
    (substituted : option wcstring) (snapshot : reader_snapshot_t)
    (cmd : wcstring) (opts : list getopt_t) (arg1 arg2 : wcstring)
    (others : list wcstring) (streams : io_streams_t) (w : world) (l : locals) :
  getopt_loop cmd opts (initial_locals substituted snapshot) streams = inr l ->
  sets_cursor l ->
  builtin_commandline substituted snapshot cmd opts (arg1 :: arg2 :: others)
    streams w
  = Some (mk_outcome 1 (complain cmd (ERR_TOO_MANY_ARGUMENTS cmd) streams) w)
  /\ reports_usage_error
       (builtin_commandline substituted snapshot cmd opts
          (arg1 :: arg2 :: others) streams w) w.
Proof.
  intros Hopts (Hf & Hs & Hc & Hpart & Htok & Hcut).
  assert (Hrun : builtin_commandline substituted snapshot cmd opts
                   (arg1 :: arg2 :: others) streams w
                 = Some (mk_outcome 1
                           (complain cmd (ERR_TOO_MANY_ARGUMENTS cmd) streams)
                           w)).
  { unfold builtin_commandline. rewrite Hopts.
    assert (Hn : (1 <? Z.of_nat (List.length (arg1 :: arg2 :: others))) = true)
      by (apply Z.ltb_lt; cbn [List.length]; lia).
    rewrite Hn.
    destruct l as [part cut mode fm sm tok cm lm sem pm cb].
    cbn in Hf, Hs, Hc, Hpart, Htok, Hcut. subst.
    cbn [function_mode selection_mode cursor_mode line_mode search_mode
         paging_mode orb andb].
    now rewrite !orb_true_r. }
  split; [exact Hrun|].
  rewrite Hrun. eexists. split; [reflexivity|].
  cbn [status out_world]. split; [lia | reflexivity].
Qed.

(** The run of the cursor mode on an operand that is not a number is not
    among them. *)
Lemma cursor_not_a_number_not_reported {shell : Collaborators}
    (substituted : option wcstring) (snapshot : reader_snapshot_t)
    (cmd : wcstring) (opts : list getopt_t) (arg : wcstring)
    (streams : io_streams_t) (w : world) (l : locals) :
  getopt_loop cmd opts (initial_locals substituted snapshot) streams = inr l ->
  sets_cursor l ->
  ~ reports_usage_error
      (builtin_commandline substituted snapshot cmd opts [arg] streams w) w.
Proof.
  intros Hopts Hl (o & Ho & Hstatus & _).
  rewrite (builtin_reaches_cursor_mode _ _ _ _ _ _ _ Hopts arg Hl) in Ho.
  rewrite cursor_mode_part_applies in Ho.
  injection Ho as <-. now apply Hstatus.
Qed.

(** C9. In the cursor mode, when the operand is read as a number [n] in
    full ([wcstol] reaches the end of the operand and leaves [errno]
    alone), the position that is applied is [max(0, min(n, length(text)))]
    for the text of the command line of the reader: a request before the
    start or behind the end of the text is clamped, without a complaint and
    with status 0, and the new position lies in the text. *)
Theorem cursor_position_is_clamped :
  forall (shell : Collaborators) (substituted : option wcstring)
         (snapshot : reader_snapshot_t) (cmd : wcstring) (opts : list getopt_t)
         (arg : wcstring) (n : Z) (streams : io_streams_t) (w : world)
         (l : locals),
    getopt_loop cmd opts (initial_locals substituted snapshot) streams = inr l ->
    sets_cursor l ->
    wcstol arg = mk_wcstol n [] false ->
    let line := command_line snapshot in
    let new_line :=
      {| text := text line;
         position := Z.max 0 (Z.min n (wcslen (text line))) |} in
    builtin_commandline substituted snapshot cmd opts [arg] streams w
    = Some (mk_outcome 0 streams (apply_new_commandline new_line w)) /\
    0 <= position new_line /\ position new_line <= wcslen (text new_line) /\
    (is_main_thread w = true ->
     reader_buffer (apply_new_commandline new_line w) = new_line).
Proof.
  intros C substituted snapshot cmd opts arg n streams w l Hopts Hl Hnum
    line new_line.
  split; [|split; [|split]].
  - rewrite (builtin_reaches_cursor_mode _ _ _ _ _ _ _ Hopts arg Hl).
    rewrite cursor_mode_part_applies, Hnum. reflexivity.
  - cbn [position new_line]. lia.
  - cbn [position text new_line].
    pose proof (wcslen_nonneg (text line)). lia.
  - intros Hmain. unfold apply_new_commandline. rewrite Hmain. reflexivity.
Qed.

Lemma cursor_position_is_clamped_witness :
  sets_cursor (set_cursor_mode
                 (initial_locals None
                    (mk_snapshot (mk_line (L "hello") 3) false 0 0 false false)))
  /\ wcstol (L "42") = mk_wcstol 42 [] false
  /\ builtin_commandline (shell := plain_shell) None
       (mk_snapshot (mk_line (L "hello") 3) false 0 0 false false)
       (L "commandline") [opt_C] [L "42"] (mk_streams [] [])
       (mk_world true (mk_line (L "hello") 3) [] [])
     = Some (mk_outcome 0 (mk_streams [] [])
               (mk_world true (mk_line (L "hello") 5) [] [])).
Proof.
  assert (Hl : sets_cursor
                 (set_cursor_mode
                    (initial_locals None
                       (mk_snapshot (mk_line (L "hello") 3) false 0 0 false
                          false))))
    by (unfold sets_cursor; simpl; repeat split; reflexivity).
  assert (Hnum : wcstol (L "42") = mk_wcstol 42 [] false) by reflexivity.
  split; [exact Hl|]. split; [exact Hnum|].
  exact (proj1 (cursor_position_is_clamped plain_shell None
                  (mk_snapshot (mk_line (L "hello") 3) false 0 0 false false)
                  (L "commandline") [opt_C] (L "42") 42 (mk_streams [] [])
                  (mk_world true (mk_line (L "hello") 3) [] []) _ eq_refl Hl
                  Hnum)).
Defined.

(** C10. When a run that edits the buffer has more than one operand, the
    operands are joined, with one line break between two neighbours, into
    the string [arg1 + "\n" + arg2 + "\n" + ... + argN], and
    [replace_part] is called once, with this string: the run ends as the
    run with this string as its only operand. *)
Theorem operands_are_joined_by_newlines :
  forall (shell : Collaborators) (substituted : option wcstring)
         (snapshot : reader_snapshot_t) (cmd : wcstring) (opts : list getopt_t)
         (arg1 arg2 : wcstring) (others : list wcstring)
         (streams : io_streams_t) (w : world) (l : locals),
    getopt_loop cmd opts (initial_locals substituted snapshot) streams = inr l ->
    edits_buffer l ->
    let sb := join_lines arg1 (arg2 :: others) in
    (forall (current_buffer : editable_line_t) (begin end_ : Z)
            (cut_at_cursor tokenize : bool) (mode : append_mode_t),
        write_or_replace current_buffer begin end_ cut_at_cursor tokenize mode
          (arg1 :: arg2 :: others) streams w
        = (w' <- replace_part current_buffer begin end_ sb mode w ;;
           Some (mk_outcome 0 streams w'))) /\
    builtin_commandline substituted snapshot cmd opts (arg1 :: arg2 :: others)
      streams w
    = builtin_commandline substituted snapshot cmd opts [sb] streams w.
Proof.
  intros C substituted snapshot cmd opts arg1 arg2 others streams w l Hopts
    (Hf & Hs & Hc & Hl & Hse & Hp) sb.
  assert (Hswitch : forall cb b e cut tok mode,
             write_or_replace cb b e cut tok mode (arg1 :: arg2 :: others)
               streams w
             = (w' <- replace_part cb b e sb mode w ;;
                Some (mk_outcome 0 streams w'))).
  { intros. unfold write_or_replace. now rewrite join_operands_lines. }
  split; [exact Hswitch|].
  unfold builtin_commandline. rewrite Hopts.
  assert (Hn1 : (Z.of_nat (List.length (arg1 :: arg2 :: others)) =? 0) = false)
    by (apply Z.eqb_neq; cbn [List.length]; lia).
  assert (Hn2 : (Z.of_nat (List.length [sb]) =? 0) = false) by reflexivity.
  rewrite Hn1, Hn2.
  destruct l as [part cut mode fm sm tok cm lm sem pm cb].
  cbn in Hf, Hs, Hc, Hl, Hse, Hp. subst.
  cbn [function_mode selection_mode cursor_mode line_mode search_mode
       paging_mode tokenize cut_at_cursor buffer_part append_mode
       current_buffer orb andb negb].
  rewrite !andb_false_r.
  destruct tok, cut; cbn [orb andb]; try reflexivity.
  destruct (extent _ _) as [begin end_].
  rewrite Hswitch. reflexivity.
Qed.

Lemma operands_are_joined_by_newlines_witness :
  edits_buffer (set_append_mode INSERT_MODE
                  (initial_locals None
                     (mk_snapshot (mk_line (L "ab") 1) false 0 0 false false)))
  /\ join_lines (L "x") [L "y"; L "z"]
     = L "x" ++ newline :: L "y" ++ newline :: L "z"
  /\ builtin_commandline (shell := plain_shell) None
       (mk_snapshot (mk_line (L "ab") 1) false 0 0 false false)
       (L "commandline") [opt_i] [L "x"; L "y"; L "z"] (mk_streams [] [])
       (mk_world true (mk_line (L "ab") 1) [] [])
     = Some (mk_outcome 0 (mk_streams [] [])
               (mk_world true
                  (mk_line (L "ax" ++ newline :: L "y" ++ newline :: L "zb") 6)
                  [] [])).
Proof.
  assert (Hl : edits_buffer
                 (set_append_mode INSERT_MODE
                    (initial_locals None
                       (mk_snapshot (mk_line (L "ab") 1) false 0 0 false
                          false))))
    by (unfold edits_buffer; simpl; repeat split; reflexivity).
  split; [exact Hl|]. split; [reflexivity|].
  exact (eq_trans
           (proj2 (operands_are_joined_by_newlines plain_shell None
                     (mk_snapshot (mk_line (L "ab") 1) false 0 0 false false)
                     (L "commandline") [opt_i] (L "x") (L "y") [L "z"]
                     (mk_streams [] [])
                     (mk_world true (mk_line (L "ab") 1) [] []) _ eq_refl Hl))
           eq_refl).
Defined.

(** ** The output *)

Lemma wcsndup_extent (s : wcstring) (b e : Z) :
  valid_extent s b e -> wcsndup s b (e - b) = Some (extentText s b e).
Proof.
  intros (Hb & Hbe & He). unfold wcsndup, wcs_tail, extentText, slice.
  replace ((0 <=? b) && (b <=? wcslen s)) with true
    by (symmetry; rewrite andb_true_iff, !Z.leb_le; lia).
  cbn [bind].
  replace (e - b <? 0) with false by (symmetry; apply Z.ltb_ge; lia).
  reflexivity.
Qed.

Lemma size_t_sub_inside (a b : Z) : b <= a -> size_t_sub a b = a - b.
Proof.
  intros Hba. unfold size_t_sub.
  now replace (b <=? a) with true by (symmetry; apply Z.leb_le; lia).
Qed.

(** [size_t_sub] is the subtraction of the machine on [size_t] values. *)
Lemma size_t_sub_wraps (a b : Z) :
  0 <= a < 2 ^ 64 -> 0 <= b < 2 ^ 64 -> size_t_sub a b = (a - b) mod 2 ^ 64.
Proof.
  intros Ha Hb. unfold size_t_sub.
  destruct (Z.leb_spec b a).
  - symmetry. apply Z.mod_small. lia.
  - apply Z.mod_unique with (q := -1); lia.
Qed.

(** The loop over the tokens adds, to what was written before, the lines
    of the string tokens that come before the cut. *)
Lemma write_part_tokens_lines {shell : Collaborators} (toks : list token)
    (cut_at_cursor : bool) (pos : Z) (out : wcstring) :
  write_part_tokens toks cut_at_cursor pos out
  = out ++ lines_text
             (token_lines (if cut_at_cursor then tokens_before pos toks
                           else toks)).
Proof.
  revert out. induction toks as [|t toks IH]; intros out.
  - destruct cut_at_cursor; cbn; now rewrite app_nil_r.
  - cbn [write_part_tokens]. rewrite IH. clear IH.
    unfold token_lines, lines_text.
    destruct cut_at_cursor; cbn [andb tokens_before].
    + unfold tok_end. destruct (pos <=? tok_get_pos t + wcslen (tok_last t)).
      * cbn. now rewrite app_nil_r.
      * cbn [filter]. unfold is_string at 2.
        destruct (tok_last_type t); cbn [map List.concat];
          rewrite <- ?app_assoc; reflexivity.
    + cbn [filter]. unfold is_string at 2.
      destruct (tok_last_type t); cbn [map List.concat];
        rewrite <- ?app_assoc; reflexivity.
Qed.

(** The tokenized output for every cursor: the cut is at [pos], the
    [size_t] difference of the cursor and [begin]. *)
Lemma write_part_tokenized {shell : Collaborators} (text : wcstring) (cursor : Z)
    (streams : io_streams_t) (begin end_ : Z) (cut_at_cursor : bool) :
  valid_extent text begin end_ ->
  write_part text cursor streams begin end_ cut_at_cursor true
  = Some (stdout_append
            (lines_text
               (token_lines
                  (if cut_at_cursor
                   then tokens_before (size_t_sub cursor begin)
                          (tokenizer_t (extentText text begin end_))
                   else tokenizer_t (extentText text begin end_))))
            streams).
Proof.
  intros Hext. unfold write_part.
  rewrite wcsndup_extent by assumption. cbn [bind].
  now rewrite write_part_tokens_lines.
Qed.

(** C6, amended.  With [tokenize] on, for every text, every valid extent
    and every cursor that, when [cut_at_cursor] is set, is at or behind
    [begin], the tokens of the extent are visited from left to right.
    With [cut_at_cursor] the visit stops at the first token whose end
    offset reaches or exceeds [relative = cursor - begin]: this token and
    all that follow are left out.  Each string token that remains is
    unescaped and written as a line of its own; a token of another kind
    writes nothing, and yet stops the visit like any other.  For the
    buffer ["echo foo; echo bar"], whose tokens are the four words and the
    separator, the whole extent and a cursor in ["foo"], the lines are
    ["echo"] alone with the cut and ["echo"], ["foo"], ["echo"], ["bar"]
    without it. *)
Theorem tokenized_output :
  (forall (shell : Collaborators) (text : wcstring) (cursor : Z)
          (streams : io_streams_t) (begin end_ : Z) (cut_at_cursor : bool),
      valid_extent text begin end_ ->
      (cut_at_cursor = true -> begin <= cursor) ->
      let relative := cursor - begin in
      let toks := tokenizer_t (extentText text begin end_) in
      let kept := if cut_at_cursor then tokens_before relative toks else toks in
      write_part text cursor streams begin end_ cut_at_cursor true
      = Some (stdout_append (lines_text (token_lines kept)) streams))
  /\ (forall (shell : Collaborators) (cursor : Z) (streams : io_streams_t),
         tokenizer_t (L "echo foo; echo bar") = echo_foo_echo_bar ->
         unescape_string_in_place (L "echo") = L "echo" ->
         unescape_string_in_place (L "foo") = L "foo" ->
         unescape_string_in_place (L "bar") = L "bar" ->
         5 <= cursor -> cursor <= 8 ->
         write_part (L "echo foo; echo bar") cursor streams 0 18 true true
         = Some (stdout_append (lines_text [L "echo"]) streams) /\
         write_part (L "echo foo; echo bar") cursor streams 0 18 false true
         = Some (stdout_append
                   (lines_text [L "echo"; L "foo"; L "echo"; L "bar"])
                   streams)).
Proof.
  split.
  - intros C text cursor streams begin end_ cut Hext Hcut relative toks kept.
    rewrite write_part_tokenized by assumption.
    unfold kept, toks, relative. destruct cut; [|reflexivity].
    now rewrite size_t_sub_inside by auto.
  - intros C cursor streams Htoks Hecho Hfoo Hbar Hlo Hhi.
    assert (Hext : valid_extent (L "echo foo; echo bar") 0 18)
      by (unfold valid_extent, wcslen; simpl; lia).
    rewrite !write_part_tokenized by assumption.
    change (extentText (L "echo foo; echo bar") 0 18)
      with (L "echo foo; echo bar").
    rewrite Htoks, size_t_sub_inside by lia.
    unfold echo_foo_echo_bar. cbn [tokens_before].
    change (tok_end (mk_token TOK_STRING 0 (L "echo"))) with 4.
    change (tok_end (mk_token TOK_STRING 5 (L "foo"))) with 8.
    replace (cursor - 0 <=? 4) with false by (symmetry; apply Z.leb_gt; lia).
    replace (cursor - 0 <=? 8) with true by (symmetry; apply Z.leb_le; lia).
    unfold token_lines.
    cbn [filter map is_string tok_last_type tok_last].
    now rewrite Hecho, Hfoo, Hbar.
Qed.

Lemma tokenized_output_witness :
  valid_extent (L "echo foo; echo bar") 0 18 /\
  tokenizer_t (Collaborators := plain_shell) (L "echo foo; echo bar")
  = echo_foo_echo_bar /\
  write_part (shell := plain_shell) (L "echo foo; echo bar") 6 (mk_streams [] [])
    0 18 true true
  = Some (mk_streams (L "echo" ++ [newline]) []) /\
  write_part (shell := plain_shell) (L "echo foo; echo bar") 6 (mk_streams [] [])
    0 18 false true
  = Some (mk_streams
            (L "echo" ++ newline :: L "foo" ++ newline :: L "echo"
               ++ newline :: L "bar" ++ [newline]) []).
Proof.
  assert (Hext : valid_extent (L "echo foo; echo bar") 0 18)
    by (unfold valid_extent, wcslen; simpl; lia).
  assert (Htoks : tokenizer_t (Collaborators := plain_shell)
                    (L "echo foo; echo bar") = echo_foo_echo_bar)
    by reflexivity.
  assert (Hcut : true = true -> 0 <= 6) by lia.
  assert (Hlo : 5 <= 6) by lia.
  assert (Hhi : 6 <= 8) by lia.
  split; [exact Hext|]. split; [exact Htoks|].
  split.
  - exact (eq_trans
             (proj1 tokenized_output plain_shell (L "echo foo; echo bar") 6
                (mk_streams [] []) 0 18 true Hext Hcut)
             eq_refl).
  - exact (proj2 (proj2 tokenized_output plain_shell 6 (mk_streams [] [])
                    Htoks eq_refl eq_refl eq_refl Hlo Hhi)).
Defined.

(** C6 as it is written, for every cursor, fails: for the extent [5,8) of
    ["echo foo"] and the cursor at 0, before the extent, [relative] would
    be -5 and the first token would stop the visit; in the code the
    difference wraps around, nothing is cut and the line ["foo"] is
    written. *)
Lemma tokenized_output_cursor_before_extent :
  write_part (shell := plain_shell) (L "echo foo") 0 (mk_streams [] []) 5 8 true
    true
  = Some (mk_streams (L "foo" ++ [newline]) []) /\
  write_part (shell := plain_shell) (L "echo foo") 0 (mk_streams [] []) 5 8 true
    true
  <> Some (stdout_append
             (lines_text
                (token_lines (shell := plain_shell)
                   (tokens_before (0 - 5)
                      (tokenizer_t (Collaborators := plain_shell)
                         (extentText (L "echo foo") 5 8)))))
             (mk_streams [] [])).
Proof. split; [reflexivity | vm_compute; discriminate]. Qed.

Lemma slice_whole (s : wcstring) : slice s 0 (0 + wcslen s) = s.
Proof.
  unfold slice. replace (0 + wcslen s - 0) with (wcslen s) by lia.
  unfold wcslen. rewrite Nat2Z.id. cbn [Z.to_nat skipn]. apply firstn_all.
Qed.

(** C7, amended.  With [tokenize] off, for every text, every valid extent
    and every cursor that, when [cut_at_cursor] is set, is at or behind
    [begin] and in the text, the output is
    [Unescape(text[begin:effectiveEnd])] and then one line break, where
    [effectiveEnd] is [end] without [cut_at_cursor] and
    [begin + (cursor - begin)] with it.  The whole extent of a buffer [T],
    without any flag, gives the unescaped [T] and a line break: ["T\n"] for
    a [T] that unescaping leaves as it is. *)
Theorem plain_output :
  (forall (shell : Collaborators) (text : wcstring) (cursor : Z)
          (streams : io_streams_t) (begin end_ : Z) (cut_at_cursor : bool),
      valid_extent text begin end_ ->
      (cut_at_cursor = true -> begin <= cursor /\ cursor <= wcslen text) ->
      let effectiveEnd :=
        if cut_at_cursor then begin + (cursor - begin) else end_ in
      let unescaped := unescape_string_in_place (slice text begin effectiveEnd) in
      write_part text cursor streams begin end_ cut_at_cursor false
      = Some (stdout_append [newline] (stdout_append unescaped streams)) /\
      stdout_stream (stdout_append [newline] (stdout_append unescaped streams))
      = stdout_stream streams ++ unescaped ++ [newline])
  /\ (forall (shell : Collaborators) (substituted : option wcstring)
             (snapshot : reader_snapshot_t) (cmd : wcstring)
             (streams : io_streams_t) (w : world),
         let T := text (current_buffer (initial_locals substituted snapshot)) in
         builtin_commandline substituted snapshot cmd [] [] streams w
         = Some (mk_outcome 0
                   (stdout_append [newline]
                      (stdout_append (unescape_string_in_place T) streams))
                   w) /\
         (unescape_string_in_place T = T ->
          builtin_commandline substituted snapshot cmd [] []
            (mk_streams [] (stderr_stream streams)) w
          = Some (mk_outcome 0
                    (mk_streams (T ++ [newline]) (stderr_stream streams)) w))).
Proof.
  assert (Hgen : forall (C : Collaborators) text cursor streams begin end_ cut,
             valid_extent text begin end_ ->
             (cut = true -> begin <= cursor /\ cursor <= wcslen text) ->
             write_part text cursor streams begin end_ cut false
             = Some (stdout_append [newline]
                       (stdout_append
                          (unescape_string_in_place
                             (slice text begin
                                (if cut then begin + (cursor - begin)
                                 else end_)))
                          streams))).
  { intros C text cursor streams begin end_ cut Hext Hcut. unfold write_part.
    destruct cut.
    - destruct (Hcut eq_refl) as [Hlo Hhi].
      rewrite size_t_sub_inside by assumption.
      rewrite wcs_chars_slice by in_bounds. reflexivity.
    - rewrite wcs_chars_slice by in_bounds. reflexivity. }
  split.
  - intros C text cursor streams begin end_ cut Hext Hcut effectiveEnd unescaped.
    split; [now apply Hgen|].
    cbn [stdout_append stdout_stream]. now rewrite <- app_assoc.
  - intros C substituted snapshot cmd streams w T.
    assert (Hrun : forall streams',
               builtin_commandline substituted snapshot cmd [] [] streams' w
               = Some (mk_outcome 0
                         (stdout_append [newline]
                            (stdout_append (unescape_string_in_place T)
                               streams'))
                         w)).
    { intros streams'. unfold builtin_commandline.
      remember (initial_locals substituted snapshot) as l eqn:El.
      assert (Hl : l = mk_locals None false None false false false false false
                         false false (current_buffer l))
        by (subst l; reflexivity).
      subst T. cbn [getopt_loop]. rewrite Hl.
      cbn [function_mode selection_mode cursor_mode line_mode search_mode
           paging_mode tokenize cut_at_cursor buffer_part append_mode
           current_buffer orb andb is_set List.length Z.of_nat Z.eqb negb
           extent].
      unfold write_or_replace.
      pose proof (wcslen_nonneg (text (current_buffer l))).
      rewrite Hgen; [|in_bounds | discriminate].
      cbn [bind]. now rewrite slice_whole. }
    split; [apply Hrun|].
    intros Hplain. rewrite Hrun, Hplain. reflexivity.
Qed.

Lemma plain_output_witness :
  valid_extent (L "abcdef") 1 5 /\ (1 <= 3 /\ 3 <= wcslen (L "abcdef")) /\
  write_part (shell := plain_shell) (L "abcdef") 3 (mk_streams [] []) 1 5 true false
  = Some (mk_streams (L "bc" ++ [newline]) []) /\
  builtin_commandline (shell := plain_shell) None
    (mk_snapshot (mk_line (L "T") 1) false 0 0 false false) (L "commandline")
    [] [] (mk_streams [] []) (mk_world true (mk_line (L "T") 1) [] [])
  = Some (mk_outcome 0 (mk_streams (L "T" ++ [newline]) [])
            (mk_world true (mk_line (L "T") 1) [] [])).
Proof.
  assert (Hext : valid_extent (L "abcdef") 1 5)
    by (unfold valid_extent, wcslen; simpl; lia).
  assert (Hcur : 1 <= 3 /\ 3 <= wcslen (L "abcdef"))
    by (unfold wcslen; simpl; lia).
  split; [exact Hext|]. split; [exact Hcur|].
  split.
  - exact (eq_trans
             (proj1 (proj1 plain_output plain_shell (L "abcdef") 3
                       (mk_streams [] []) 1 5 true Hext (fun _ => Hcur)))
             eq_refl).
  - exact (proj2 (proj2 plain_output plain_shell None
                    (mk_snapshot (mk_line (L "T") 1) false 0 0 false false)
                    (L "commandline") (mk_streams [] [])
                    (mk_world true (mk_line (L "T") 1) [] []))
             eq_refl).
Defined.


(** C7 as it is written, for every cursor, fails: for the extent [5,8) of
    ["echo foo"] and the cursor at 0, before the extent, the count of the
    string is the wrapped difference and the function writes nothing,
    where the claim has the unescaped [text[5:0]] and a line break. *)
Lemma plain_output_cursor_before_extent :
  write_part (shell := plain_shell) (L "echo foo") 0 (mk_streams [] []) 5 8 true
    false = None /\
  write_part (shell := plain_shell) (L "echo foo") 0 (mk_streams [] []) 5 8 true
    false
  <> Some (stdout_append [newline]
             (stdout_append
                (unescape_string_in_place (Collaborators := plain_shell)
                   (slice (L "echo foo") 5 (5 + (0 - 5))))
                (mk_streams [] []))).
Proof. split; [reflexivity | vm_compute; discriminate]. Qed.

(** * Further properties of the splice *)

Lemma wcs_chars_inv (s : wcstring) (off n : Z) (r : wcstring) :
  wcs_chars s off n = Some r ->
  0 <= off /\ 0 <= n /\ off + n <= wcslen s
  /\ r = firstn (Z.to_nat n) (skipn (Z.to_nat off) s).
Proof.
  unfold wcs_chars.
  destruct ((0 <=? off) && (0 <=? n) && (off + n <=? wcslen s)) eqn:E;
    [|discriminate].
  rewrite !andb_true_iff, !Z.leb_le in E. intros [= <-]. intuition.
Qed.

Lemma wcs_tail_inv (s : wcstring) (off : Z) (r : wcstring) :
  wcs_tail s off = Some r -> 0 <= off /\ off <= wcslen s.
Proof.
  unfold wcs_tail.
  destruct ((0 <=? off) && (off <=? wcslen s)) eqn:E; [|discriminate].
  rewrite andb_true_iff, !Z.leb_le in E. intuition.
Qed.

(** When [replace_part] builds a line, its pointers were in the buffer,
    and in the modes that read the extent they were in order. *)
Lemma replace_part_line_inv (buffer : editable_line_t) (begin end_ : Z)
    (insert : wcstring) (mode : append_mode_t) (new_line : editable_line_t) :
  replace_part_line buffer begin end_ insert mode = Some new_line ->
  0 <= begin /\ begin <= wcslen (text buffer) /\
  0 <= end_ /\ end_ <= wcslen (text buffer) /\
  (mode = APPEND_MODE -> begin <= end_) /\
  (mode = INSERT_MODE -> begin <= position buffer /\ position buffer <= end_).
Proof.
  unfold replace_part_line. intros Hrun.
  destruct (wcs_chars (text buffer) 0 begin) as [out|] eqn:E0;
    [|discriminate].
  apply wcs_chars_inv in E0. cbn [bind] in Hrun.
  destruct mode; cbn [bind] in Hrun.
  - destruct (wcs_tail (text buffer) end_) eqn:Et; [|discriminate].
    apply wcs_tail_inv in Et.
    repeat split; try lia; discriminate.
  - destruct (wcs_chars (text buffer) begin (position buffer - begin))
      eqn:E1; [|discriminate].
    apply wcs_chars_inv in E1. cbn [bind] in Hrun.
    destruct (wcs_chars (text buffer) (begin + (position buffer - begin))
                (end_ - begin - (position buffer - begin))) eqn:E2;
      [|discriminate].
    apply wcs_chars_inv in E2. cbn [bind] in Hrun.
    destruct (wcs_tail (text buffer) end_) eqn:Et; [|discriminate].
    apply wcs_tail_inv in Et.
    repeat split; try lia; discriminate.
  - destruct (wcs_chars (text buffer) begin (end_ - begin)) eqn:E1;
      [|discriminate].
    apply wcs_chars_inv in E1. cbn [bind] in Hrun.
    destruct (wcs_tail (text buffer) end_) eqn:Et; [|discriminate].
    apply wcs_tail_inv in Et.
    repeat split; try lia; discriminate.
Qed.

(** The line of a splice over a valid extent, in the three modes at once. *)
Lemma replace_part_line_shape (buffer : editable_line_t) (begin end_ : Z)
    (insert : wcstring) (mode : append_mode_t) :
  valid_extent (text buffer) begin end_ ->
  (mode = INSERT_MODE -> begin <= position buffer /\ position buffer <= end_) ->
  replace_part_line buffer begin end_ insert mode
  = Some {| text := prefix (text buffer) begin
                      ++ spliced_text buffer begin end_ insert mode
                      ++ suffix (text buffer) end_;
            position := spliced_cursor buffer begin insert mode |}.
Proof.
  intros Hext Hins. destruct mode; cbn [spliced_text spliced_cursor].
  - now apply replace_line.
  - destruct (Hins eq_refl). rewrite insert_line by assumption.
    now rewrite <- !app_assoc.
  - rewrite append_line by assumption. now rewrite <- !app_assoc.
Qed.

Lemma spliced_text_length (buffer : editable_line_t) (begin end_ : Z)
    (insert : wcstring) (mode : append_mode_t) :
  valid_extent (text buffer) begin end_ ->
  (mode = INSERT_MODE -> begin <= position buffer /\ position buffer <= end_) ->
  wcslen (spliced_text buffer begin end_ insert mode)
  = wcslen insert
    + match mode with REPLACE_MODE => 0 | _ => end_ - begin end.
Proof.
  intros Hext Hins. destruct mode; cbn [spliced_text].
  - lia.
  - destruct (Hins eq_refl).
    rewrite !wcslen_app, !slice_length by in_bounds. lia.
  - unfold extentText. rewrite wcslen_app, slice_length by in_bounds. lia.
Qed.

Lemma slice_app_left (a r : wcstring) : slice (a ++ r) 0 (wcslen a) = a.
Proof.
  unfold slice, wcslen. replace (Z.of_nat (List.length a) - 0)
    with (Z.of_nat (List.length a)) by lia.
  rewrite Nat2Z.id. cbn [Z.to_nat skipn].
  rewrite firstn_app, Nat.sub_diag, firstn_all. cbn [firstn].
  apply app_nil_r.
Qed.

Lemma slice_app_right (a s : wcstring) :
  slice (a ++ s) (wcslen a) (wcslen (a ++ s)) = s.
Proof.
  unfold slice. rewrite wcslen_app.
  replace (wcslen a + wcslen s - wcslen a) with (wcslen s) by lia.
  unfold wcslen. rewrite !Nat2Z.id.
  rewrite skipn_app, Nat.sub_diag, skipn_all. cbn [skipn app].
  apply firstn_all.
Qed.

Lemma line_eta (line : editable_line_t) :
  {| text := text line; position := position line |} = line.
Proof. now destruct line. Qed.



(** X2. A splice over a valid extent never touches the text outside the
    extent: the new text starts with the old prefix and ends with the old
    suffix, and it is longer than the old text by the length of the insert
    string, less the length of the extent in replace mode. *)
Theorem splice_keeps_text_outside_extent :
  forall (buffer : editable_line_t) (begin end_ : Z) (insert : wcstring)
         (mode : append_mode_t) (new_line : editable_line_t),
    valid_extent (text buffer) begin end_ ->
    replace_part_line buffer begin end_ insert mode = Some new_line ->
    let n := wcslen (text new_line) in
    n = wcslen (text buffer) + wcslen insert
        - match mode with REPLACE_MODE => end_ - begin | _ => 0 end /\
    slice (text new_line) 0 begin = prefix (text buffer) begin /\
    slice (text new_line) (n - (wcslen (text buffer) - end_)) n
    = suffix (text buffer) end_.
Proof.
  intros buffer begin end_ insert mode new_line Hext Hrun n.
  pose proof (replace_part_line_inv _ _ _ _ _ _ Hrun)
    as (_ & _ & _ & _ & _ & Hins).
  rewrite (replace_part_line_shape _ _ _ _ _ Hext Hins) in Hrun.
  injection Hrun as <-. cbn [text] in n.
  pose proof (spliced_text_length buffer begin end_ insert mode Hext Hins)
    as Hmid.
  assert (Hp : wcslen (prefix (text buffer) begin) = begin)
    by (unfold prefix; rewrite slice_length by in_bounds; lia).
  assert (Hs : wcslen (suffix (text buffer) end_) = wcslen (text buffer) - end_)
    by (unfold suffix; rewrite slice_length by in_bounds; lia).
  assert (Hn : n = begin + wcslen (spliced_text buffer begin end_ insert mode)
                   + (wcslen (text buffer) - end_))
    by (unfold n; rewrite !wcslen_app; lia).
  split; [destruct mode; in_bounds|]. split.
  - cbn [text].
    pose proof (slice_app_left (prefix (text buffer) begin)
                  (spliced_text buffer begin end_ insert mode
                     ++ suffix (text buffer) end_)) as K.
    now rewrite Hp in K.
  - cbn [text].
    pose proof (slice_app_right
                  (prefix (text buffer) begin
                     ++ spliced_text buffer begin end_ insert mode)
                  (suffix (text buffer) end_)) as K.
    rewrite <- app_assoc in K. fold n in K.
    replace (n - (wcslen (text buffer) - end_))
      with (wcslen (prefix (text buffer) begin
                      ++ spliced_text buffer begin end_ insert mode))
      by (rewrite wcslen_app; lia).
    exact K.
Qed.

Lemma splice_keeps_text_outside_extent_witness :
  valid_extent (L "abcdef") 2 5 /\
  replace_part_line (mk_line (L "abcdef") 0) 2 5 (L "XY") REPLACE_MODE
  = Some (mk_line (L "abXYf") 4) /\
  slice (L "abXYf") 0 2 = L "ab" /\ slice (L "abXYf") 4 5 = L "f".
Proof.
  assert (Hext : valid_extent (text (mk_line (L "abcdef") 0)) 2 5)
    by (unfold valid_extent, wcslen; simpl; lia).
  assert (Hrun : replace_part_line (mk_line (L "abcdef") 0) 2 5 (L "XY")
                   REPLACE_MODE = Some (mk_line (L "abXYf") 4))
    by reflexivity.
  split; [exact Hext|]. split; [exact Hrun|].
  exact (proj2 (splice_keeps_text_outside_extent (mk_line (L "abcdef") 0) 2 5
                  (L "XY") REPLACE_MODE (mk_line (L "abXYf") 4) Hext Hrun)).
Defined.

Lemma slice_split (s : wcstring) (b p e : Z) :
  0 <= b -> b <= p -> p <= e -> e <= wcslen s ->
  slice s b p ++ slice s p e = slice s b e.
Proof.
  intros Hb Hbp Hpe He. unfold slice.
  replace (Z.to_nat p) with (Z.to_nat (p - b) + Z.to_nat b)%nat by lia.
  rewrite <- skipn_skipn.
  replace (Z.to_nat (e - b)) with (Z.to_nat (p - b) + Z.to_nat (e - p))%nat
    by lia.
  set (t := skipn (Z.to_nat b) s).
  rewrite <- (firstn_skipn (Z.to_nat (p - b)) t) at 3.
  assert (Hlen : List.length (firstn (Z.to_nat (p - b)) t) = Z.to_nat (p - b)).
  { apply firstn_length_le. unfold t. rewrite length_skipn.
    unfold wcslen in He. lia. }
  rewrite <- Hlen at 3. now rewrite firstn_app_2.
Qed.

(** X3. The empty insert string: over a valid extent, the append mode and
    the insert mode (with the cursor in the extent) build the line they
    were given, text and cursor, and the replace mode deletes the extent
    and leaves the cursor at [begin]. *)
Theorem splice_of_empty_string :
  forall (buffer : editable_line_t) (begin end_ : Z),
    valid_extent (text buffer) begin end_ ->
    replace_part_line buffer begin end_ [] APPEND_MODE = Some buffer /\
    (begin <= position buffer /\ position buffer <= end_ ->
     replace_part_line buffer begin end_ [] INSERT_MODE = Some buffer) /\
    replace_part_line buffer begin end_ [] REPLACE_MODE
    = Some {| text := prefix (text buffer) begin ++ suffix (text buffer) end_;
              position := begin |}.
Proof.
  intros buffer begin end_ Hext. split; [|split].
  - rewrite append_line by assumption. cbn [app].
    rewrite prefix_extent_suffix by assumption. now rewrite line_eta.
  - intros [Hlo Hhi]. rewrite insert_line by assumption. cbn [app].
    rewrite (app_assoc (slice _ begin _) (slice _ _ end_)).
    rewrite slice_split by in_bounds.
    fold (extentText (text buffer) begin end_).
    rewrite prefix_extent_suffix by assumption.
    replace (position buffer + wcslen []) with (position buffer)
      by (unfold wcslen; cbn [List.length]; lia).
    now rewrite line_eta.
  - rewrite replace_line by assumption. cbn [app].
    replace (begin + wcslen []) with begin
      by (unfold wcslen; cbn [List.length]; lia).
    reflexivity.
Qed.

Lemma splice_of_empty_string_witness :
  valid_extent (L "abcdef") 1 5 /\
  replace_part_line (mk_line (L "abcdef") 3) 1 5 [] APPEND_MODE
  = Some (mk_line (L "abcdef") 3) /\
  replace_part_line (mk_line (L "abcdef") 3) 1 5 [] REPLACE_MODE
  = Some (mk_line (L "af") 1).
Proof.
  assert (Hext : valid_extent (text (mk_line (L "abcdef") 3)) 1 5)
    by (unfold valid_extent, wcslen; simpl; lia).
  split; [exact Hext|]. split.
  - exact (proj1 (splice_of_empty_string (mk_line (L "abcdef") 3) 1 5 Hext)).
  - exact (proj2 (proj2 (splice_of_empty_string (mk_line (L "abcdef") 3) 1 5
                           Hext))).
Defined.

(** X4. Replacing a valid extent by its own text gives the text back, with
    the cursor at the end of the extent. *)
Theorem replace_by_extent_text :
  forall (buffer : editable_line_t) (begin end_ : Z),
    valid_extent (text buffer) begin end_ ->
    replace_part_line buffer begin end_
      (extentText (text buffer) begin end_) REPLACE_MODE
    = Some {| text := text buffer; position := end_ |}.
Proof.
  intros buffer begin end_ Hext.
  rewrite replace_line by assumption.
  rewrite prefix_extent_suffix by assumption.
  unfold extentText. rewrite slice_length by in_bounds.
  do 2 f_equal. lia.
Qed.

Lemma replace_by_extent_text_witness :
  valid_extent (L "echo foo") 5 8 /\
  extentText (L "echo foo") 5 8 = L "foo" /\
  replace_part_line (mk_line (L "echo foo") 0) 5 8 (L "foo") REPLACE_MODE
  = Some (mk_line (L "echo foo") 8).
Proof.
  assert (Hext : valid_extent (text (mk_line (L "echo foo") 0)) 5 8)
    by (unfold valid_extent, wcslen; simpl; lia).
  split; [exact Hext|]. split; [reflexivity|].
  exact (replace_by_extent_text (mk_line (L "echo foo") 0) 5 8 Hext).
Defined.

(** X5. How the three modes meet.  On the empty extent at the cursor the
    replace mode and the insert mode build the same line.  With the cursor
    at the end of a valid extent the insert mode and the append mode build
    the same text, and the insert mode alone moves the cursor behind the
    inserted string. *)
Theorem splice_modes_meet :
  forall (buffer : editable_line_t) (begin end_ : Z) (insert : wcstring),
    valid_extent (text buffer) begin end_ ->
    position buffer = end_ ->
    (begin = end_ ->
     replace_part_line buffer begin end_ insert REPLACE_MODE
     = replace_part_line buffer begin end_ insert INSERT_MODE) /\
    exists new_text : wcstring,
      replace_part_line buffer begin end_ insert INSERT_MODE
      = Some {| text := new_text; position := end_ + wcslen insert |} /\
      replace_part_line buffer begin end_ insert APPEND_MODE
      = Some {| text := new_text; position := end_ |}.
Proof.
  intros buffer begin end_ insert Hext Hcur.
  assert (Hempty : slice (text buffer) end_ end_ = []).
  { unfold slice. replace (end_ - end_) with 0 by lia. reflexivity. }
  split.
  - intros ->. rewrite replace_line, insert_line by in_bounds.
    rewrite Hcur, Hempty. reflexivity.
  - eexists. split.
    + rewrite insert_line by in_bounds. rewrite Hcur, Hempty. cbn [app].
      reflexivity.
    + rewrite append_line by assumption. rewrite Hcur. reflexivity.
Qed.

Lemma splice_modes_meet_witness :
  valid_extent (L "abcdef") 1 4 /\
  exists new_text : wcstring,
    replace_part_line (mk_line (L "abcdef") 4) 1 4 (L "Q") INSERT_MODE
    = Some (mk_line new_text (4 + wcslen (L "Q"))) /\
    replace_part_line (mk_line (L "abcdef") 4) 1 4 (L "Q") APPEND_MODE
    = Some (mk_line new_text 4).
Proof.
  assert (Hext : valid_extent (text (mk_line (L "abcdef") 4)) 1 4)
    by (unfold valid_extent, wcslen; simpl; lia).
  assert (Hcur : position (mk_line (L "abcdef") 4) = 4) by reflexivity.
  split; [exact Hext|].
  exact (proj2 (splice_modes_meet (mk_line (L "abcdef") 4) 1 4 (L "Q")
                  Hext Hcur)).
Defined.

(** * Further properties of the builtin *)

(** The option loop: an early return has status 0 with the help on the
    output stream, or status 1 with a complaint on the error stream. *)
Lemma getopt_loop_exit {shell : Collaborators} (cmd : wcstring)
    (opts : list getopt_t) (l : locals) (streams : io_streams_t) (st : Z)
    (streams' : io_streams_t) :
  getopt_loop cmd opts l streams = inl (st, streams') ->
  (st = 0 /\ stderr_stream streams' = stderr_stream streams) \/
  (st = 1 /\ stdout_stream streams' = stdout_stream streams).
Proof.
  revert l. induction opts as [|opt opts IH]; intros l; cbn [getopt_loop].
  - discriminate.
  - destruct (getopt_case cmd opt l streams) as [[st0 s0]|l'] eqn:E.
    + intros [= <- <-]. destruct opt; cbn in E;
        try discriminate E; try (injection E as <- <-; auto).
      destruct flag; [discriminate E | injection E as <- <-; auto].
    + apply IH.
Qed.

(** The loop of the function mode touches the queue of key presses only. *)
Lemma queue_input_functions_frame {shell : Collaborators} (cmd : wcstring)
    (args : list wcstring) (streams : io_streams_t) (w : world) :
  let o := queue_input_functions cmd args streams w in
  (status o = 0 \/ status o = 1) /\
  stdout_stream (out_streams o) = stdout_stream streams /\
  is_main_thread (out_world o) = is_main_thread w /\
  reader_buffer (out_world o) = reader_buffer w /\
  main_thread_queue (out_world o) = main_thread_queue w.
Proof.
  revert w. induction args as [|arg args IH]; intros w;
    cbn [queue_input_functions].
  - cbn. auto.
  - destruct (input_function_get_code arg) as [c|].
    + apply (IH (input_queue_ch c w)).
    + cbn. auto.
Qed.

(** One step through the decisions of [builtin_commandline] in a
    hypothesis that says what the run returned. *)
Ltac walk_builtin H :=
  repeat (cbn [bind] in H;
          match type of H with
          | Some _ = Some _ => fail 1
          | None = Some _ => discriminate H
          | context [bind ?m _] => destruct m eqn:?
          | context [if ?c then _ else _] => destruct c eqn:?
          | context [match ?x with _ => _ end] => destruct x eqn:?
          end).

(** X6. A run without operands never changes the state around the
    builtin: whatever the options, the buffer of the reader, the queue for
    the main thread and the queue of key presses are as before. *)
Theorem run_without_operands_changes_nothing :
  forall (shell : Collaborators) (substituted : option wcstring)
         (snapshot : reader_snapshot_t) (cmd : wcstring) (opts : list getopt_t)
         (streams : io_streams_t) (w : world) (o : outcome),
    builtin_commandline substituted snapshot cmd opts [] streams w = Some o ->
    out_world o = w.
Proof.
  intros shell substituted snapshot cmd opts streams w o Hrun.
  unfold builtin_commandline, cursor_mode_part, write_or_replace in Hrun.
  cbn [List.length Z.of_nat Z.eqb Z.ltb Z.compare negb andb orb] in Hrun.
  walk_builtin Hrun; injection Hrun as <-; reflexivity.
Qed.

Lemma run_without_operands_changes_nothing_witness :
  builtin_commandline (shell := plain_shell) None
    (mk_snapshot (mk_line (L "echo foo") 6) false 0 0 false false)
    (L "commandline") [opt_t] [] (mk_streams [] [])
    (mk_world true (mk_line (L "echo foo") 6) [] [])
  = Some (mk_outcome 0 (mk_streams (L "foo" ++ [newline]) [])
            (mk_world true (mk_line (L "echo foo") 6) [] []))
  /\ out_world
       (mk_outcome 0 (mk_streams (L "foo" ++ [newline]) [])
          (mk_world true (mk_line (L "echo foo") 6) [] []))
     = mk_world true (mk_line (L "echo foo") 6) [] [].
Proof.
  assert (Hrun : builtin_commandline (shell := plain_shell) None
                   (mk_snapshot (mk_line (L "echo foo") 6) false 0 0 false
                      false)
                   (L "commandline") [opt_t] [] (mk_streams [] [])
                   (mk_world true (mk_line (L "echo foo") 6) [] [])
                 = Some (mk_outcome 0 (mk_streams (L "foo" ++ [newline]) [])
                           (mk_world true (mk_line (L "echo foo") 6) [] [])))
    by reflexivity.
  split; [exact Hrun|].
  exact (run_without_operands_changes_nothing plain_shell None _ _ _ _ _ _
           Hrun).
Defined.

(** X7. The status of the builtin is 0 or 1, and a run that returns 1 has
    written nothing on its output stream and has not touched the buffer of
    the reader, nor queued a line for the main thread. *)
Theorem failed_run_leaves_buffer_and_output :
  forall (shell : Collaborators) (substituted : option wcstring)
         (snapshot : reader_snapshot_t) (cmd : wcstring) (opts : list getopt_t)
         (args : list wcstring) (streams : io_streams_t) (w : world)
         (o : outcome),
    builtin_commandline substituted snapshot cmd opts args streams w = Some o ->
    (status o = 0 \/ status o = 1) /\
    (status o <> 0 ->
     stdout_stream (out_streams o) = stdout_stream streams /\
     reader_buffer (out_world o) = reader_buffer w /\
     main_thread_queue (out_world o) = main_thread_queue w).
Proof.
  intros shell substituted snapshot cmd opts args streams w o Hrun.
  unfold builtin_commandline in Hrun.
  destruct (getopt_loop cmd opts (initial_locals substituted snapshot) streams)
    as [[st streams']|l] eqn:Hopts.
  - injection Hrun as <-. cbn [status out_streams out_world].
    destruct (getopt_loop_exit _ _ _ _ _ _ Hopts) as [[-> _]|[-> Hout]].
    + split; [auto | intros []; reflexivity].
    + split; auto.
  - pose proof (queue_input_functions_frame cmd args streams w) as Hqueue.
    unfold cursor_mode_part, write_or_replace in Hrun.
    walk_builtin Hrun; injection Hrun as <-;
      repeat match goal with
             | |- context [match ?x with _ => _ end] => destruct x
             end;
      cbn [status out_streams out_world complain stderr_append stdout_stream]
        in *;
      try (split; [auto | intros Hst; try (now elim Hst); auto]);
      try (cbn zeta in Hqueue; intuition).
Qed.

Lemma failed_run_leaves_buffer_and_output_witness :
  exists o : outcome,
    builtin_commandline (shell := plain_shell) None
      (mk_snapshot (mk_line (L "hello") 3) false 0 0 false false)
      (L "commandline") [opt_o] [L "x"] (mk_streams [] [])
      (mk_world true (mk_line (L "hello") 3) [] [])
    = Some o /\
    status o = 1 /\
    (status o = 0 \/ status o = 1) /\
    (status o <> 0 ->
     stdout_stream (out_streams o) = stdout_stream (mk_streams [] []) /\
     reader_buffer (out_world o)
     = reader_buffer (mk_world true (mk_line (L "hello") 3) [] []) /\
     main_thread_queue (out_world o)
     = main_thread_queue (mk_world true (mk_line (L "hello") 3) [] [])).
Proof.
  eexists. split; [reflexivity|]. split; [reflexivity|].
  exact (failed_run_leaves_buffer_and_output plain_shell None
           (mk_snapshot (mk_line (L "hello") 3) false 0 0 false false)
           (L "commandline") [opt_o] [L "x"] (mk_streams [] [])
           (mk_world true (mk_line (L "hello") 3) [] []) _ eq_refl).
Defined.

(** The option loop keeps the cursor of the current buffer in its text,
    and without [-t], [-j] and [-p] it keeps the whole buffer selected. *)
Lemma getopt_loop_keeps {shell : Collaborators} (cmd : wcstring)
    (opts : list getopt_t) (streams : io_streams_t) (l l' : locals) :
  getopt_loop cmd opts l streams = inr l' ->
  (line_ok (current_buffer l) -> line_ok (current_buffer l')) /\
  (Forall keeps_whole_buffer opts -> selected_part l = STRING_MODE ->
   selected_part l' = STRING_MODE).
Proof.
  revert l. induction opts as [|opt opts IH]; intros l; cbn [getopt_loop].
  - intros [= <-]. auto.
  - destruct (getopt_case cmd opt l streams) as [r|l1] eqn:E; [discriminate|].
    intros Hloop. destruct (IH _ Hloop) as [IHline IHpart]. split.
    + intros Hline. apply IHline.
      destruct opt; cbn in E; try discriminate E;
        try (injection E as <-; exact Hline).
      * destruct flag; [injection E as <-; exact Hline | discriminate E].
      * injection E as <-. cbn. unfold line_ok. cbn [text position].
        pose proof (wcslen_nonneg woptarg). lia.
    + intros Hopts Hpart. inversion Hopts as [|? ? Hopt Hrest]; subst.
      apply IHpart; [assumption|].
      destruct opt; cbn in E, Hopt; try contradiction; try discriminate E;
        try (injection E as <-; assumption || reflexivity).
      destruct flag; [injection E as <-; assumption | discriminate E].
Qed.

Lemma initial_locals_ok (substituted : option wcstring)
    (snapshot : reader_snapshot_t) :
  line_ok (command_line snapshot) ->
  line_ok (current_buffer (initial_locals substituted snapshot)).
Proof.
  intros Hline. destruct substituted as [t|]; cbn; [|exact Hline].
  unfold line_ok. cbn [text position]. pose proof (wcslen_nonneg t). lia.
Qed.

Lemma apply_new_commandline_ok (tmp : editable_line_t) (w : world) :
  line_ok tmp -> world_ok w -> world_ok (apply_new_commandline tmp w).
Proof.
  intros Htmp [Hreader Hqueue]. unfold apply_new_commandline, world_ok.
  destruct (is_main_thread w); cbn.
  - split; [|exact Hqueue]. now rewrite line_eta.
  - split; [exact Hreader|]. apply Forall_app. split; [exact Hqueue|].
    now constructor.
Qed.

(** Over a valid extent the splice of a line whose cursor is in its text
    (and, in insert mode, in the extent) is a line of the same kind. *)
Lemma splice_line_ok (buffer : editable_line_t) (begin end_ : Z)
    (insert : wcstring) (mode : append_mode_t) :
  line_ok buffer ->
  valid_extent (text buffer) begin end_ ->
  (mode = INSERT_MODE -> begin <= position buffer /\ position buffer <= end_) ->
  exists tmp : editable_line_t,
    replace_part_line buffer begin end_ insert mode = Some tmp /\ line_ok tmp.
Proof.
  intros [Hpos Hcur] Hext Hins. eexists. split.
  - apply replace_part_line_shape; assumption.
  - unfold line_ok. cbn [text position].
    rewrite !wcslen_app, spliced_text_length by assumption.
    unfold prefix, suffix. rewrite !slice_length by in_bounds.
    pose proof (wcslen_nonneg insert).
    destruct mode; cbn [spliced_cursor]; in_bounds.
Qed.

(** The whole buffer can always be written. *)
Lemma write_part_whole {shell : Collaborators} (line : editable_line_t)
    (streams : io_streams_t) (cut_at_cursor tokenize : bool) :
  line_ok line ->
  exists streams' : io_streams_t,
    write_part (text line) (position line) streams 0 (0 + wcslen (text line))
      cut_at_cursor tokenize = Some streams'.
Proof.
  intros [Hpos Hcur]. pose proof (wcslen_nonneg (text line)).
  destruct tokenize.
  - rewrite write_part_tokenized by in_bounds. eauto.
  - unfold write_part. rewrite size_t_sub_inside by assumption.
    destruct cut_at_cursor; rewrite wcs_chars_slice by lia; cbn [bind]; eauto.
Qed.

(** X8. On the whole buffer the builtin always comes back and keeps every
    cursor in its text.  When the options do not select the job, the
    process or the token, the cursor of the reader's command line is in
    its text and the selection starts in it, every run returns a status,
    and if the lines of the reader and of the queue for the main thread had
    their cursors in their texts before the run, they have them after
    it. *)
Theorem whole_buffer_run_is_safe :
  forall (shell : Collaborators) (substituted : option wcstring)
         (snapshot : reader_snapshot_t) (cmd : wcstring) (opts : list getopt_t)
         (args : list wcstring) (streams : io_streams_t) (w : world),
    Forall keeps_whole_buffer opts ->
    line_ok (command_line snapshot) ->
    0 <= selection_start snapshot /\
    selection_start snapshot <= wcslen (text (command_line snapshot)) ->
    world_ok w ->
    exists o : outcome,
      builtin_commandline substituted snapshot cmd opts args streams w = Some o
      /\ world_ok (out_world o).
Proof.
  intros shell substituted snapshot cmd opts args streams w Hwhole Hsnap Hsel
    Hw.
  unfold builtin_commandline.
  destruct (getopt_loop cmd opts (initial_locals substituted snapshot) streams)
    as [[st streams']|l] eqn:Hopts.
  { eexists. split; [reflexivity | exact Hw]. }
  destruct (getopt_loop_keeps _ _ _ _ _ Hopts) as [Hline Hpart].
  specialize (Hline (initial_locals_ok _ _ Hsnap)).
  specialize (Hpart Hwhole eq_refl).
  change (match buffer_part l with Some p => p | None => STRING_MODE end)
    with (selected_part l).
  rewrite Hpart. cbn [extent].
  assert (Hdone : forall st s,
             exists o, Some (mk_outcome st s w) = Some o /\ world_ok (out_world o))
    by (intros; eexists; split; [reflexivity | exact Hw]).
  repeat match goal with
         | |- context [if ?c then _ else _] => destruct c eqn:?
         end;
    try apply Hdone.
  - (* the function mode *)
    destruct (queue_input_functions_frame cmd args streams w)
      as (_ & _ & _ & Hr & Hq).
    eexists. split; [reflexivity|].
    destruct Hw as [Hreader Hqueue]. split; [now rewrite Hr | now rewrite Hq].
  - (* the selection *)
    unfold wcs_substr.
    replace ((0 <=? selection_start snapshot)
             && (selection_start snapshot
                 <=? wcslen (text (command_line snapshot))))
      with true by (symmetry; rewrite andb_true_iff, !Z.leb_le; lia).
    cbn [bind]. apply Hdone.
  - (* the cursor mode *)
    eexists. split; [reflexivity|].
    unfold cursor_mode_part. destruct args as [|arg args'];
      cbn [out_world]; [exact Hw|].
    apply apply_new_commandline_ok; [|exact Hw].
    unfold line_ok, maxi, mini. cbn [text position].
    pose proof (wcslen_nonneg (text (command_line snapshot))). lia.
  - (* the final switch *)
    assert (Hext : valid_extent (text (current_buffer l)) 0
                     (0 + wcslen (text (current_buffer l))))
      by (pose proof (wcslen_nonneg (text (current_buffer l))); in_bounds).
    assert (Hsplice : forall sb,
               exists o,
                 (w' <- replace_part (current_buffer l) 0
                          (0 + wcslen (text (current_buffer l))) sb
                          match append_mode l with
                          | Some m => m
                          | None => REPLACE_MODE
                          end w ;;
                  Some (mk_outcome 0 streams w')) = Some o
                 /\ world_ok (out_world o)).
    { intros sb.
      destruct (splice_line_ok (current_buffer l) 0
                  (0 + wcslen (text (current_buffer l))) sb
                  match append_mode l with
                  | Some m => m
                  | None => REPLACE_MODE
                  end Hline Hext) as (tmp & Htmp & Hok).
      { intros _. destruct Hline. lia. }
      rewrite (replace_part_applies _ _ _ _ _ w _ Htmp). cbn [option_map bind].
      eexists. split; [reflexivity|].
      now apply apply_new_commandline_ok. }
    unfold write_or_replace. destruct args as [|arg [|arg' others]].
    + destruct (write_part_whole (current_buffer l) streams (cut_at_cursor l)
                  (tokenize l) Hline) as [streams' ->].
      cbn [bind]. eexists. split; [reflexivity | exact Hw].
    + apply Hsplice.
    + apply Hsplice.
Qed.

Lemma whole_buffer_run_is_safe_witness :
  Forall keeps_whole_buffer [opt_i] /\
  line_ok (mk_line (L "hello") 3) /\
  world_ok (mk_world true (mk_line (L "hello") 3) [] []) /\
  exists o : outcome,
    builtin_commandline (shell := plain_shell) None
      (mk_snapshot (mk_line (L "hello") 3) false 0 0 false false)
      (L "commandline") [opt_i] [L "x"] (mk_streams [] [])
      (mk_world true (mk_line (L "hello") 3) [] [])
    = Some o /\ world_ok (out_world o).
Proof.
  assert (Hopts : Forall keeps_whole_buffer [opt_i])
    by (repeat constructor).
  assert (Hline : line_ok (mk_line (L "hello") 3))
    by (unfold line_ok, wcslen; simpl; lia).
  assert (Hsel : 0 <= 0 /\ 0 <= wcslen (L "hello"))
    by (unfold wcslen; simpl; lia).
  assert (Hw : world_ok (mk_world true (mk_line (L "hello") 3) [] []))
    by (split; [exact Hline | constructor]).
  split; [exact Hopts|]. split; [exact Hline|]. split; [exact Hw|].
  exact (whole_buffer_run_is_safe plain_shell None
           (mk_snapshot (mk_line (L "hello") 3) false 0 0 false false)
           (L "commandline") [opt_i] [L "x"] (mk_streams [] [])
           (mk_world true (mk_line (L "hello") 3) [] []) Hopts Hline Hsel Hw).
Defined.

Lemma slice_empty (s : wcstring) (i : Z) : slice s i i = [].
Proof. unfold slice. now replace (i - i) with 0 by lia. Qed.

Lemma suffix_at_end (s : wcstring) : suffix s (0 + wcslen s) = [].
Proof. unfold suffix, slice. now replace (wcslen s - (0 + wcslen s)) with 0 by lia. Qed.

(** X9. An edit of the whole buffer.  A run with operands that selects no
    part and no special mode hands to [apply_new_commandline], with status
    0 and without output: in replace mode (the default) the joined operands
    with the cursor at their end, whatever the buffer was; in append mode
    the old text followed by them, with the old cursor; in insert mode the
    old text with them at the cursor, and the cursor behind them. *)
Theorem whole_buffer_edit_applied :
  forall (shell : Collaborators) (substituted : option wcstring)
         (snapshot : reader_snapshot_t) (cmd : wcstring) (opts : list getopt_t)
         (arg : wcstring) (others : list wcstring) (streams : io_streams_t)
         (w : world) (l : locals),
    getopt_loop cmd opts (initial_locals substituted snapshot) streams = inr l ->
    edits_buffer l -> tokenize l = false -> cut_at_cursor l = false ->
    selected_part l = STRING_MODE ->
    line_ok (current_buffer l) ->
    builtin_commandline substituted snapshot cmd opts (arg :: others) streams w
    = Some (mk_outcome 0 streams
              (apply_new_commandline
                 (whole_buffer_edit (splice_mode l) (current_buffer l)
                    (join_lines arg others)) w)).
Proof.
  intros shell substituted snapshot cmd opts arg others streams w l Hopts Hl
    Htok Hcut Hpart [Hpos Hcur].
  rewrite (builtin_reaches_switch _ _ _ _ _ _ _ Hopts (arg :: others) Hl Htok
             Hcut) by discriminate.
  rewrite Hpart. cbn [extent fst snd].
  set (old := current_buffer l) in *.
  assert (Hext : valid_extent (text old) 0 (0 + wcslen (text old)))
    by (pose proof (wcslen_nonneg (text old)); in_bounds).
  assert (Hline : replace_part_line old 0 (0 + wcslen (text old))
                    (join_lines arg others) (splice_mode l)
                  = Some (whole_buffer_edit (splice_mode l) old
                            (join_lines arg others))).
  { rewrite replace_part_line_shape by (try assumption; intros _; lia).
    unfold prefix. rewrite slice_empty, suffix_at_end. cbn [app].
    rewrite app_nil_r.
    destruct (splice_mode l);
      cbn [spliced_text spliced_cursor whole_buffer_edit].
    - reflexivity.
    - reflexivity.
    - unfold extentText. now rewrite slice_whole. }
  pose proof (replace_part_applies _ _ _ _ _ w _ Hline) as Hpart'.
  cbn [option_map] in Hpart'.
  unfold write_or_replace. destruct others as [|arg' others'].
  - cbn [join_lines] in Hpart'. now rewrite Hpart'.
  - now rewrite join_operands_lines, Hpart'.
Qed.

Lemma whole_buffer_edit_applied_witness :
  edits_buffer (initial_locals None
                  (mk_snapshot (mk_line (L "old text") 3) false 0 0 false false))
  /\ line_ok (mk_line (L "old text") 3)
  /\ builtin_commandline (shell := plain_shell) None
       (mk_snapshot (mk_line (L "old text") 3) false 0 0 false false)
       (L "commandline") [] [L "new"] (mk_streams [] [])
       (mk_world true (mk_line (L "old text") 3) [] [])
     = Some (mk_outcome 0 (mk_streams [] [])
               (mk_world true (mk_line (L "new") 3) [] [])).
Proof.
  assert (Hl : edits_buffer
                 (initial_locals None
                    (mk_snapshot (mk_line (L "old text") 3) false 0 0 false
                       false)))
    by (unfold edits_buffer; simpl; repeat split; reflexivity).
  assert (Hline : line_ok (mk_line (L "old text") 3))
    by (unfold line_ok, wcslen; simpl; lia).
  split; [exact Hl|]. split; [exact Hline|].
  exact (whole_buffer_edit_applied plain_shell None
           (mk_snapshot (mk_line (L "old text") 3) false 0 0 false false)
           (L "commandline") [] (L "new") [] (mk_streams [] [])
           (mk_world true (mk_line (L "old text") 3) [] []) _ eq_refl Hl
           eq_refl eq_refl eq_refl Hline).
Defined.

(** X10. Switches that do not fit the operands are rejected before
    anything is done.  Outside the selection mode, [--cut-at-cursor] or
    [--tokenize] together with an operand, and [--append], [--insert] or
    [--replace] without an operand, end the run with status 1, a message
    and the help on the error stream, no output and the state around the
    builtin as it was. *)
Theorem switches_against_operands_are_rejected :
  forall (shell : Collaborators) (substituted : option wcstring)
         (snapshot : reader_snapshot_t) (cmd : wcstring) (opts : list getopt_t)
         (args : list wcstring) (streams : io_streams_t) (w : world)
         (l : locals),
    getopt_loop cmd opts (initial_locals substituted snapshot) streams = inr l ->
    selection_mode l = false ->
    ((tokenize l = true \/ cut_at_cursor l = true) /\ args <> []) \/
    (append_mode l <> None /\ args = []) ->
    exists m : message,
      builtin_commandline substituted snapshot cmd opts args streams w
      = Some (mk_outcome 1 (complain cmd m streams) w).
Proof.
  intros shell substituted snapshot cmd opts args streams w l Hopts Hsel Hbad.
  unfold builtin_commandline. rewrite Hopts.
  destruct l as [part cut mode fm sm tok cm lm sem pm cb].
  cbn [function_mode selection_mode cursor_mode line_mode search_mode
       paging_mode tokenize cut_at_cursor buffer_part append_mode
       current_buffer] in *.
  subst sm.
  destruct Hbad as [[Hflag Hargs] | [Hmode ->]].
  - assert (Hn : (Z.of_nat (List.length args) =? 0) = false).
    { destruct args; [congruence|]. apply Z.eqb_neq. cbn [List.length]. lia. }
    rewrite Hn. destruct (1 <? Z.of_nat (List.length args)).
    + destruct Hflag as [-> | ->]; destruct fm, part, mode, cm, lm, sem, pm;
        try destruct tok; try destruct cut; cbn; eexists; reflexivity.
    + destruct Hflag as [-> | ->]; destruct fm, part, mode, cm, lm, sem, pm;
        try destruct tok; try destruct cut; cbn; eexists; reflexivity.
  - destruct mode as [mode|]; [|congruence].
    destruct fm, part, cut, tok, cm, lm, sem, pm; cbn; eexists; reflexivity.
Qed.

Lemma switches_against_operands_are_rejected_witness :
  tokenize
    (set_tokenize
       (initial_locals None
          (mk_snapshot (mk_line (L "hello") 3) false 0 0 false false)))
  = true
  /\ [L "x"] <> []
  /\ exists m : message,
       builtin_commandline (shell := plain_shell) None
         (mk_snapshot (mk_line (L "hello") 3) false 0 0 false false)
         (L "commandline") [opt_o] [L "x"] (mk_streams [] [])
         (mk_world true (mk_line (L "hello") 3) [] [])
       = Some (mk_outcome 1
                 (complain (shell := plain_shell) (L "commandline") m
                    (mk_streams [] []))
                 (mk_world true (mk_line (L "hello") 3) [] [])).
Proof.
  assert (Hargs : [L "x"] <> []) by discriminate.
  split; [reflexivity|]. split; [exact Hargs|].
  exact (switches_against_operands_are_rejected plain_shell None
           (mk_snapshot (mk_line (L "hello") 3) false 0 0 false false)
           (L "commandline") [opt_o] [L "x"] (mk_streams [] [])
           (mk_world true (mk_line (L "hello") 3) [] []) _ eq_refl eq_refl
           (or_introl (conj (or_introl eq_refl) Hargs))).
Defined.




Lemma firstn_clip {A : Type} (n : nat) (l : list A) :
  firstn n l = firstn (Nat.min n (List.length l)) l.
Proof. rewrite <- firstn_firstn. now rewrite firstn_all. Qed.

(** X12. The selection mode.  A run with [-s] (and without [-f]) looks at
    no other switch and at no operand.  Without an active selection it
    writes nothing; with one that starts in the text it writes the selected
    characters, cut off at the end of the text, without a line break; the
    status is 0 and the state around the builtin is as before.  With a
    selection that starts behind the end of the text the run does not come
    back. *)
Theorem selection_mode_output :
  forall (shell : Collaborators) (substituted : option wcstring)
         (snapshot : reader_snapshot_t) (cmd : wcstring) (opts : list getopt_t)
         (args : list wcstring) (streams : io_streams_t) (w : world)
         (l : locals),
    getopt_loop cmd opts (initial_locals substituted snapshot) streams = inr l ->
    function_mode l = false -> selection_mode l = true ->
    let line := text (command_line snapshot) in
    let start := selection_start snapshot in
    let stop := Z.min (start + selection_length snapshot) (wcslen line) in
    (selection_is_active snapshot = false ->
     builtin_commandline substituted snapshot cmd opts args streams w
     = Some (mk_outcome 0 streams w)) /\
    (selection_is_active snapshot = true ->
     0 <= start -> start <= wcslen line -> 0 <= selection_length snapshot ->
     builtin_commandline substituted snapshot cmd opts args streams w
     = Some (mk_outcome 0 (stdout_append (slice line start stop) streams) w)) /\
    (selection_is_active snapshot = true -> wcslen line < start ->
     builtin_commandline substituted snapshot cmd opts args streams w = None).
Proof.
  intros shell substituted snapshot cmd opts args streams w l Hopts Hf Hs line
    start stop.
  unfold builtin_commandline. rewrite Hopts, Hf, Hs.
  split; [|split].
  - intros ->. reflexivity.
  - intros -> Hlo Hhi Hlen. unfold wcs_substr. fold line start.
    replace ((0 <=? start) && (start <=? wcslen line)) with true
      by (symmetry; rewrite andb_true_iff, !Z.leb_le; lia).
    cbn [bind]. do 3 f_equal. unfold slice.
    rewrite firstn_clip. f_equal.
    rewrite length_skipn. unfold stop, wcslen in *. lia.
  - intros -> Hout. unfold wcs_substr. fold line start.
    replace (start <=? wcslen line) with false
      by (symmetry; apply Z.leb_gt; lia).
    now rewrite andb_false_r.
Qed.

Lemma selection_mode_output_witness :
  builtin_commandline (shell := plain_shell) None
    (mk_snapshot (mk_line (L "echo foo") 8) true 5 10 false false)
    (L "commandline") [opt_s] [L "ignored"] (mk_streams [] [])
    (mk_world true (mk_line (L "echo foo") 8) [] [])
  = Some (mk_outcome 0 (mk_streams (L "foo") [])
            (mk_world true (mk_line (L "echo foo") 8) [] [])).
Proof.
  assert (Hlo : 0 <= 5) by lia.
  assert (Hhi : 5 <= wcslen (L "echo foo")) by (unfold wcslen; simpl; lia).
  assert (Hlen : 0 <= 10) by lia.
  exact (proj1 (proj2 (selection_mode_output plain_shell None
                         (mk_snapshot (mk_line (L "echo foo") 8) true 5 10
                            false false)
                         (L "commandline") [opt_s] [L "ignored"]
                         (mk_streams [] [])
                         (mk_world true (mk_line (L "echo foo") 8) [] []) _
                         eq_refl eq_refl eq_refl))
           eq_refl Hlo Hhi Hlen).
Defined.

(** * Further properties of the output *)

Lemma tokens_before_prefix (relative : Z) (toks : list token) :
  exists rest : list token, toks = tokens_before relative toks ++ rest.
Proof.
  induction toks as [|t toks [rest IH]]; cbn [tokens_before].
  - now exists [].
  - destruct (relative <=? tok_end t).
    + now exists (t :: toks).
    + exists rest. cbn [app]. now rewrite <- IH.
Qed.

Lemma lines_text_app (a b : list wcstring) :
  lines_text (a ++ b) = lines_text a ++ lines_text b.
Proof. unfold lines_text. now rewrite map_app, concat_app. Qed.

Lemma token_lines_app {shell : Collaborators} (a b : list token) :
  token_lines (a ++ b) = token_lines a ++ token_lines b.
Proof. unfold token_lines. now rewrite filter_app, map_app. Qed.

(** X13. With [tokenize], the output cut at the cursor is a prefix of the
    output without the cut: for every valid extent and every cursor, the
    lines written with [cut_at_cursor] are the first lines written without
    it. *)
Theorem cut_output_is_a_prefix :
  forall (shell : Collaborators) (text : wcstring) (cursor : Z)
         (streams : io_streams_t) (begin end_ : Z),
    valid_extent text begin end_ ->
    exists cut rest : wcstring,
      write_part text cursor streams begin end_ true true
      = Some (stdout_append cut streams) /\
      write_part text cursor streams begin end_ false true
      = Some (stdout_append (cut ++ rest) streams).
Proof.
  intros shell text cursor streams begin end_ Hext.
  rewrite !write_part_tokenized by assumption.
  destruct (tokens_before_prefix (size_t_sub cursor begin)
              (tokenizer_t (extentText text begin end_))) as [rest Hrest].
  exists (lines_text
            (token_lines
               (tokens_before (size_t_sub cursor begin)
                  (tokenizer_t (extentText text begin end_))))),
    (lines_text (token_lines rest)).
  split; [reflexivity|].
  rewrite <- lines_text_app, <- token_lines_app, <- Hrest. reflexivity.
Qed.

Lemma cut_output_is_a_prefix_witness :
  valid_extent (L "echo foo; echo bar") 0 18 /\
  exists cut rest : wcstring,
    write_part (shell := plain_shell) (L "echo foo; echo bar") 12
      (mk_streams [] []) 0 18 true true
    = Some (stdout_append cut (mk_streams [] [])) /\
    write_part (shell := plain_shell) (L "echo foo; echo bar") 12
      (mk_streams [] []) 0 18 false true
    = Some (stdout_append (cut ++ rest) (mk_streams [] [])).
Proof.
  assert (Hext : valid_extent (L "echo foo; echo bar") 0 18)
    by (unfold valid_extent, wcslen; simpl; lia).
  split; [exact Hext|].
  exact (cut_output_is_a_prefix plain_shell (L "echo foo; echo bar") 12
           (mk_streams [] []) 0 18 Hext).
Defined.

Lemma lines_text_ends (lines : list wcstring) :
  lines_text lines = [] \/
  exists body : wcstring, lines_text lines = body ++ [newline].
Proof.
  induction lines as [|line lines IH]; [now left | right].
  unfold lines_text in *. cbn [map List.concat].
  destruct IH as [-> | [body ->]].
  - exists line. now rewrite app_nil_r.
  - exists ((line ++ [newline]) ++ body). now rewrite app_assoc.
Qed.

(** X14. [write_part] only appends to the output stream.  Whenever it
    comes back, the error stream is as before and the output stream is the
    old one followed by a text that ends with a line break; with
    [tokenize] this text may also be empty, without [tokenize] it never
    is. *)
Theorem write_part_appends_lines :
  forall (shell : Collaborators) (buffer : wcstring) (cursor_pos : Z)
         (streams streams' : io_streams_t) (begin end_ : Z)
         (cut_at_cursor tokenize : bool),
    write_part buffer cursor_pos streams begin end_ cut_at_cursor tokenize
    = Some streams' ->
    stderr_stream streams' = stderr_stream streams /\
    exists out : wcstring,
      stdout_stream streams' = stdout_stream streams ++ out /\
      ((tokenize = true /\ out = []) \/
       exists body : wcstring, out = body ++ [newline]).
Proof.
  intros shell buffer cursor_pos streams streams' begin end_ cut tok Hrun.
  unfold write_part in Hrun. destruct tok.
  - destruct (wcsndup buffer begin (end_ - begin)) as [buff|];
      [|discriminate]. cbn [bind] in Hrun.
    rewrite write_part_tokens_lines in Hrun. cbn [app] in Hrun.
    injection Hrun as <-. split; [reflexivity|].
    eexists. split; [reflexivity|].
    match goal with
    | |- context [lines_text ?ls] => destruct (lines_text_ends ls) as [E|E]
    end.
    + left. now split.
    + right. exact E.
  - match type of Hrun with
    | context [bind ?m _] => destruct m as [tmp|]; [|discriminate]
    end.
    cbn [bind] in Hrun. injection Hrun as <-. split; [reflexivity|].
    exists (unescape_string_in_place tmp ++ [newline]).
    cbn [stdout_append stdout_stream]. split; [now rewrite <- app_assoc|].
    right. eexists. reflexivity.
Qed.

Lemma write_part_appends_lines_witness :
  write_part (shell := plain_shell) (L "abcdef") 3 (mk_streams (L "x") [])
    1 5 true false
  = Some (mk_streams (L "xbc" ++ [newline]) [])
  /\ exists out : wcstring,
       stdout_stream (mk_streams (L "xbc" ++ [newline]) [])
       = stdout_stream (mk_streams (L "x") []) ++ out /\
       ((false = true /\ out = []) \/
        exists body : wcstring, out = body ++ [newline]).
Proof.
  assert (Hrun : write_part (shell := plain_shell) (L "abcdef") 3
                   (mk_streams (L "x") []) 1 5 true false
                 = Some (mk_streams (L "xbc" ++ [newline]) []))
    by reflexivity.
  split; [exact Hrun|].
  exact (proj2 (write_part_appends_lines plain_shell (L "abcdef") 3
                  (mk_streams (L "x") []) _ 1 5 true false Hrun)).
Defined.

(** * The cursor mode, printed and read back *)

Lemma of_uint_acc_value (d : Decimal.uint) (acc : positive) :
  Z.pos (Pos.of_uint_acc d acc) = uint_value d (Z.pos acc).
Proof.
  revert acc. induction d; intros acc; cbn [Pos.of_uint_acc uint_value];
    [reflexivity | rewrite IHd; f_equal; lia ..].
Qed.

Lemma of_uint_value (d : Decimal.uint) :
  Z.of_N (N.of_uint d) = uint_value d 0.
Proof.
  unfold N.of_uint.
  induction d; cbn [Pos.of_uint uint_value Z.of_N];
    [reflexivity | exact IHd | apply of_uint_acc_value ..].
Qed.

Lemma read_digits_uint (d : Decimal.uint) (acc : Z) :
  read_digits (L (NilEmpty.string_of_uint d)) acc = (uint_value d acc, []).
Proof.
  revert acc. induction d; intros acc;
    cbn [NilEmpty.string_of_uint L uint_value];
    [reflexivity | apply IHd ..].
Qed.

Lemma decimal_digits_head (n : Z) :
  exists (c : wchar_t) (r : wcstring) (k : Z),
    decimal_digits n = c :: r /\ digit_value c = Some k.
Proof.
  unfold decimal_digits.
  destruct (N.to_uint (Z.to_N n)) eqn:E;
    try (do 3 eexists; split; reflexivity).
Qed.

(** [wcstol] on a string that starts with a digit: no white space and no
    sign are skipped and the digits are read from the start. *)
Lemma wcstol_digit_first (c : wchar_t) (r : wcstring) (k : Z) :
  digit_value c = Some k ->
  wcstol (c :: r)
  = let '(v, rest) := read_digits (c :: r) 0 in
    if LONG_MAX <? v then mk_wcstol LONG_MAX rest true
    else if v <? LONG_MIN then mk_wcstol LONG_MIN rest true
    else mk_wcstol v rest false.
Proof.
  intros Hdigit. pose proof Hdigit as Hrange. unfold digit_value in Hrange.
  destruct ((48 <=? Z.pos c) && (Z.pos c <=? 57)) eqn:E; [|discriminate].
  apply andb_true_iff in E. rewrite !Z.leb_le in E.
  unfold wcstol. cbn [skip_spaces].
  replace (iswspace c) with false.
  2:{ unfold iswspace. symmetry. apply orb_false_iff. split.
      - apply Z.eqb_neq. lia.
      - apply andb_false_iff. right. apply Z.leb_gt. lia. }
  replace (Z.pos c =? 45) with false by (symmetry; apply Z.eqb_neq; lia).
  replace (Z.pos c =? 43) with false by (symmetry; apply Z.eqb_neq; lia).
  now rewrite Hdigit.
Qed.

(** The digits that ["%lu"] prints are read back by [wcstol] as the number
    that was printed. *)
Lemma wcstol_decimal_digits (n : Z) :
  0 <= n -> n <= LONG_MAX ->
  wcstol (decimal_digits n) = mk_wcstol n [] false.
Proof.
  intros Hlo Hhi.
  destruct (decimal_digits_head n) as (c & r & k & Hhead & Hdigit).
  rewrite Hhead, (wcstol_digit_first c r k Hdigit), <- Hhead.
  assert (Hread : read_digits (decimal_digits n) 0 = (n, [])).
  { unfold decimal_digits, NilZero.string_of_uint.
    destruct (N.to_uint (Z.to_N n)) eqn:E.
    1:{ destruct (Z.to_N n) as [|p]; cbn in E; [discriminate|].
        now elim (DecimalPos.Unsigned.to_uint_nonnil p). }
    all: rewrite <- E, read_digits_uint, <- of_uint_value,
           DecimalN.Unsigned.of_to; f_equal; lia. }
  rewrite Hread.
  replace (LONG_MAX <? n) with false by (symmetry; apply Z.ltb_ge; lia).
  replace (n <? LONG_MIN) with false
    by (symmetry; apply Z.ltb_ge; unfold LONG_MIN; lia).
  reflexivity.
Qed.

(** A run of the cursor mode without an operand and without a switch of
    the splice reaches the code under [if (cursor_mode)]. *)
Lemma builtin_prints_cursor {shell : Collaborators}
    (substituted : option wcstring) (snapshot : reader_snapshot_t)
    (cmd : wcstring) (opts : list getopt_t) (streams : io_streams_t)
    (w : world) (l : locals) :
  getopt_loop cmd opts (initial_locals substituted snapshot) streams = inr l ->
  sets_cursor l -> append_mode l = None ->
  builtin_commandline substituted snapshot cmd opts [] streams w
  = Some (mk_outcome 0
            (stdout_append (format_lu (position (current_buffer l))) streams)
            w).
Proof.
  intros Hopts (Hf & Hs & Hc & Hpart & Htok & Hcut) Hmode.
  unfold builtin_commandline. rewrite Hopts.
  destruct l as [part cut mode fm sm tok cm lm sem pm cb].
  cbn in Hf, Hs, Hc, Hpart, Htok, Hcut, Hmode. subst.
  destruct lm, sem, pm; reflexivity.
Qed.

(** X15. The cursor mode round trip.  In the cursor mode, a run without an
    operand prints the position of the cursor in decimal digits and a line
    break; a run whose operand is these digits reads them back without a
    complaint and applies the same position to the command line of the
    reader, for every position in its text (and in a [long]). *)
Theorem cursor_printed_and_read_back :
  forall (shell : Collaborators) (substituted : option wcstring)
         (snapshot : reader_snapshot_t) (cmd : wcstring) (opts : list getopt_t)
         (streams : io_streams_t) (w : world) (l : locals),
    getopt_loop cmd opts (initial_locals substituted snapshot) streams = inr l ->
    sets_cursor l -> append_mode l = None ->
    let line := command_line snapshot in
    let p := position (current_buffer l) in
    0 <= p -> p <= wcslen (text line) -> p <= LONG_MAX ->
    builtin_commandline substituted snapshot cmd opts [] streams w
    = Some (mk_outcome 0
              (stdout_append (decimal_digits p ++ [newline]) streams) w) /\
    builtin_commandline substituted snapshot cmd opts [decimal_digits p]
      streams w
    = Some (mk_outcome 0 streams
              (apply_new_commandline {| text := text line; position := p |}
                 w)).
Proof.
  intros shell substituted snapshot cmd opts streams w l Hopts Hl Hmode line p
    Hlo Hhi Hlong.
  split.
  - now rewrite (builtin_prints_cursor _ _ _ _ _ _ _ Hopts Hl Hmode).
  - rewrite (builtin_reaches_cursor_mode _ _ _ _ _ _ _ Hopts _ Hl).
    rewrite cursor_mode_part_applies.
    rewrite wcstol_decimal_digits by assumption.
    cbn [wcstol_endptr wcstol_errno wcstol_value].
    unfold clamp. fold line.
    replace (Z.max 0 (Z.min p (wcslen (text line)))) with p by lia.
    reflexivity.
Qed.

Lemma cursor_printed_and_read_back_witness :
  sets_cursor (set_cursor_mode
                 (initial_locals None
                    (mk_snapshot (mk_line (L "hello world!") 11) false 0 0
                       false false)))
  /\ (0 <= 11 /\ 11 <= wcslen (L "hello world!") /\ 11 <= LONG_MAX)
  /\ builtin_commandline (shell := plain_shell) None
       (mk_snapshot (mk_line (L "hello world!") 11) false 0 0 false false)
       (L "commandline") [opt_C] [] (mk_streams [] [])
       (mk_world true (mk_line (L "hello world!") 2) [] [])
     = Some (mk_outcome 0 (mk_streams (L "11" ++ [newline]) [])
               (mk_world true (mk_line (L "hello world!") 2) [] []))
  /\ builtin_commandline (shell := plain_shell) None
       (mk_snapshot (mk_line (L "hello world!") 11) false 0 0 false false)
       (L "commandline") [opt_C] [L "11"] (mk_streams [] [])
       (mk_world true (mk_line (L "hello world!") 2) [] [])
     = Some (mk_outcome 0 (mk_streams [] [])
               (mk_world true (mk_line (L "hello world!") 11) [] [])).
Proof.
  assert (Hl : sets_cursor
                 (set_cursor_mode
                    (initial_locals None
                       (mk_snapshot (mk_line (L "hello world!") 11) false 0 0
                          false false))))
    by (unfold sets_cursor; simpl; repeat split; reflexivity).
  assert (Hlo : 0 <= 11) by lia.
  assert (Hhi : 11 <= wcslen (L "hello world!"))
    by (unfold wcslen; simpl; lia).
  assert (Hlong : 11 <= LONG_MAX) by (unfold LONG_MAX; lia).
  split; [exact Hl|]. split; [exact (conj Hlo (conj Hhi Hlong))|].
  exact (cursor_printed_and_read_back plain_shell None
           (mk_snapshot (mk_line (L "hello world!") 11) false 0 0 false false)
           (L "commandline") [opt_C] (mk_streams [] [])
           (mk_world true (mk_line (L "hello world!") 2) [] []) _ eq_refl Hl
           eq_refl Hlo Hhi Hlong).
Defined.

(** * Options that end the run, and the hand-off to the main thread *)

Lemma getopt_loop_app {shell : Collaborators} (cmd : wcstring)
    (before rest : list getopt_t) (streams : io_streams_t) (l0 l : locals) :
  getopt_loop cmd before l0 streams = inr l ->
  getopt_loop cmd (before ++ rest) l0 streams = getopt_loop cmd rest l streams.
Proof.
  revert l0. induction before as [|opt before IH]; intros l0;
    cbn [getopt_loop app].
  - now intros [= ->].
  - destruct (getopt_case cmd opt l0 streams) as [r|l1]; [discriminate|].
    apply IH.
Qed.

(** X16. The help option and an unknown option end the run at once.  When
    the options before it are accepted, [-h] makes the builtin write its
    help on the output stream and return 0, and an option that
    [wgetopt_long] does not know makes it write the complaint on the error
    stream and return 1, whatever the options behind it and the operands
    are; the state around the builtin is not touched. *)
Theorem help_and_unknown_option_end_the_run :
  forall (shell : Collaborators) (substituted : option wcstring)
         (snapshot : reader_snapshot_t) (cmd : wcstring)
         (before after : list getopt_t) (args : list wcstring)
         (streams : io_streams_t) (w : world) (l : locals),
    getopt_loop cmd before (initial_locals substituted snapshot) streams
    = inr l ->
    builtin_commandline substituted snapshot cmd (before ++ opt_h :: after)
      args streams w
    = Some (mk_outcome 0 (stdout_append (builtin_print_help cmd) streams) w) /\
    forall arg : wcstring,
      builtin_commandline substituted snapshot cmd
        (before ++ opt_unknown arg :: after) args streams w
      = Some (mk_outcome 1
                (stderr_append (builtin_unknown_option cmd arg) streams) w).
Proof.
  intros shell substituted snapshot cmd before after args streams w l Hopts.
  split; [|intros arg]; unfold builtin_commandline;
    now rewrite (getopt_loop_app _ _ _ _ _ _ Hopts).
Qed.

Lemma help_and_unknown_option_end_the_run_witness :
  builtin_commandline (shell := plain_shell) None
    (mk_snapshot (mk_line (L "hello") 3) false 0 0 false false)
    (L "commandline") ([opt_a] ++ opt_h :: [opt_C]) [L "x"; L "y"]
    (mk_streams [] []) (mk_world true (mk_line (L "hello") 3) [] [])
  = Some (mk_outcome 0
            (mk_streams (L "usage: commandline" ++ [newline]) [])
            (mk_world true (mk_line (L "hello") 3) [] [])).
Proof.
  exact (proj1 (help_and_unknown_option_end_the_run plain_shell None
                  (mk_snapshot (mk_line (L "hello") 3) false 0 0 false false)
                  (L "commandline") [opt_a] [opt_C] [L "x"; L "y"]
                  (mk_streams [] [])
                  (mk_world true (mk_line (L "hello") 3) [] []) _ eq_refl)).
Defined.

Lemma replace_part_world (buffer : editable_line_t) (begin end_ : Z)
    (insert : wcstring) (mode : append_mode_t) (w w' : world) :
  replace_part buffer begin end_ insert mode w = Some w' ->
  exists tmp : editable_line_t, w' = apply_new_commandline tmp w.
Proof.
  unfold replace_part.
  destruct (replace_part_line buffer begin end_ insert mode) as [tmp|];
    [|discriminate].
  intros [= <-]. now exists tmp.
Qed.

(** X17. A run applies at most one line, and off the main thread it only
    queues it.  When the builtin is not called on the main thread, the
    buffer of the reader is the same after every run, and the queue for
    the main thread is as before or longer by one line, put at its end. *)
Theorem off_main_thread_run_only_queues :
  forall (shell : Collaborators) (substituted : option wcstring)
         (snapshot : reader_snapshot_t) (cmd : wcstring) (opts : list getopt_t)
         (args : list wcstring) (streams : io_streams_t) (w : world)
         (o : outcome),
    is_main_thread w = false ->
    builtin_commandline substituted snapshot cmd opts args streams w = Some o ->
    reader_buffer (out_world o) = reader_buffer w /\
    (main_thread_queue (out_world o) = main_thread_queue w \/
     exists tmp : editable_line_t,
       main_thread_queue (out_world o) = main_thread_queue w ++ [tmp]).
Proof.
  intros shell substituted snapshot cmd opts args streams w o Hthread Hrun.
  assert (Happly : forall tmp,
             reader_buffer (apply_new_commandline tmp w) = reader_buffer w /\
             main_thread_queue (apply_new_commandline tmp w)
             = main_thread_queue w ++ [tmp])
    by (intros tmp; unfold apply_new_commandline; rewrite Hthread;
        split; reflexivity).
  pose proof (queue_input_functions_frame cmd args streams w)
    as (_ & _ & _ & Hr & Hq).
  unfold builtin_commandline, cursor_mode_part, write_or_replace in Hrun.
  walk_builtin Hrun; injection Hrun as <-;
    repeat match goal with
           | |- context [match ?x with _ => _ end] => destruct x
           end;
    cbn [out_world];
    repeat match goal with
           | H : replace_part _ _ _ _ _ _ = Some _ |- _ =>
               apply replace_part_world in H; destruct H as [? ->]
           end;
    try (split; [reflexivity | now left]);
    try (split; [exact Hr | left; exact Hq]);
    try (split; [apply Happly | right; eexists; apply Happly]).
Qed.

Lemma off_main_thread_run_only_queues_witness :
  exists o : outcome,
    builtin_commandline (shell := plain_shell) None
      (mk_snapshot (mk_line (L "hello") 3) false 0 0 false false)
      (L "commandline") [opt_a] [L "!"] (mk_streams [] [])
      (mk_world false (mk_line (L "hello") 3) [] [])
    = Some o /\
    reader_buffer (out_world o) = mk_line (L "hello") 3 /\
    (main_thread_queue (out_world o) = [] \/
     exists tmp : editable_line_t,
       main_thread_queue (out_world o) = [] ++ [tmp]).
Proof.
  eexists. split; [reflexivity|].
  exact (off_main_thread_run_only_queues plain_shell None
           (mk_snapshot (mk_line (L "hello") 3) false 0 0 false false)
           (L "commandline") [opt_a] [L "!"] (mk_streams [] [])
           (mk_world false (mk_line (L "hello") 3) [] []) _ eq_refl eq_refl).
Defined.
